(** * sigrok [jtag_avr] protocol decoder: a shallow embedding of [pd.py]

    The decoder stacks on the JTAG decoder.  It tracks the register selected
    by the last instruction-register shift and renders data-register shifts
    as BYPASS, IDCODE or AVR PDI frames.

    Python strings are modelled as [string] (ASCII text), Python integers as
    [Z] or [N], and the decoder object as a record threaded through a small
    state-and-exception monad: an exception leaves the fields already written
    and the annotations already emitted in place, as in Python. *)

From Stdlib Require Import String Ascii List ZArith NArith Bool Lia.
From Stdlib Require Import DecimalString HexadecimalString.
Import ListNotations.
Open Scope string_scope.

(** ** Python built-ins used by the decoder *)

Module Py.

Inductive Exn : Type :=
| IndexError
| ValueError
| KeyError
| TypeError
| AttributeError.

Inductive Res (A : Type) : Type :=
| Ok (a : A)
| Raise (e : Exn).
Arguments Ok {A} a.
Arguments Raise {A} e.

Definition res_bind {A B : Type} (r : Res A) (k : A -> Res B) : Res B :=
  match r with
  | Ok a => k a
  | Raise e => Raise e
  end.

(** [len(s)] *)
Definition len (s : string) : Z := Z.of_nat (String.length s).

(** Bounds of a slice [s[lo:hi]]: a negative bound counts from the end, and
    both bounds are clamped to [0 .. len(s)]. *)
Definition clamp (n : Z) (i : Z) : Z :=
  if (i <? 0)%Z then Z.max (i + n) 0 else Z.min i n.

(** [s[lo:hi]]; [None] stands for an omitted bound. *)
Definition slice (s : string) (lo hi : option Z) : string :=
  let n := len s in
  let a := match lo with Some i => clamp n i | None => 0%Z end in
  let b := match hi with Some i => clamp n i | None => n end in
  if (a <? b)%Z then substring (Z.to_nat a) (Z.to_nat (b - a)) s else "".

(** [s[i]] for a string: a one-character string, or [IndexError]. *)
Definition str_item (s : string) (i : Z) : Res string :=
  let n := len s in
  let j := if (i <? 0)%Z then (i + n)%Z else i in
  if ((0 <=? j) && (j <? n))%Z then
    match String.get (Z.to_nat j) s with
    | Some c => Ok (String c "")
    | None => Raise IndexError
    end
  else Raise IndexError.

(** [l[i]] for a list, with a non-negative constant index. *)
Definition list_item {A : Type} (l : list A) (i : nat) : Res A :=
  match nth_error l i with
  | Some a => Ok a
  | None => Raise IndexError
  end.

(** [d.get(k, default)] on a dict written as its list of items. *)
Fixpoint dict_get {K V : Type} (eqb : K -> K -> bool)
         (d : list (K * V)) (k : K) (default : V) : V :=
  match d with
  | [] => default
  | (k', v) :: d' => if eqb k' k then v else dict_get eqb d' k default
  end.

(** [d[k]], raising [KeyError] on a missing key. *)
Fixpoint dict_item {K V : Type} (eqb : K -> K -> bool)
         (d : list (K * V)) (k : K) : Res V :=
  match d with
  | [] => Raise KeyError
  | (k', v) :: d' => if eqb k' k then Ok v else dict_item eqb d' k
  end.

(** *** [int(text, base)]

    The scanner follows CPython: optional surrounding white space, an optional
    sign, an optional base prefix for bases 2, 8 and 16 (after which one
    underscore may follow), then digits in which single underscores may
    separate digits. *)

Definition is_space (c : ascii) : bool :=
  let n := nat_of_ascii c in
  ((9 <=? n) && (n <=? 13))%nat || (n =? 32)%nat.

Definition digit_value (c : ascii) : option N :=
  let n := N_of_ascii c in
  if ((48 <=? n) && (n <=? 57))%N then Some (n - 48)%N
  else if ((97 <=? n) && (n <=? 122))%N then Some (n - 87)%N
  else if ((65 <=? n) && (n <=? 90))%N then Some (n - 55)%N
  else None.

Definition is_underscore (c : ascii) : bool := Ascii.eqb c "_".

Fixpoint skip_spaces (l : list ascii) : list ascii :=
  match l with
  | c :: l' => if is_space c then skip_spaces l' else l
  | [] => []
  end.

(** The digit loop: [prev_us] tells whether the previous character was an
    underscore; the result is the value, the number of digits read and the
    unread rest. *)
Fixpoint scan_digits (base : N) (prev_us : bool) (acc : N) (digits : nat)
         (l : list ascii) : option (N * nat * list ascii) :=
  let stop := if prev_us then None else Some (acc, digits, l) in
  match l with
  | [] => stop
  | c :: l' =>
      if is_underscore c then
        if prev_us then None else scan_digits base true acc digits l'
      else
        match digit_value c with
        | Some d =>
            if (d <? base)%N
            then scan_digits base false (acc * base + d)%N (S digits) l'
            else stop
        | None => stop
        end
  end.

Definition strip_prefix (base : N) (l : list ascii) : list ascii :=
  match l with
  | "0"%char :: p :: l' =>
      let hit :=
        ((base =? 16)%N && (Ascii.eqb p "x" || Ascii.eqb p "X")) ||
        ((base =? 8)%N && (Ascii.eqb p "o" || Ascii.eqb p "O")) ||
        ((base =? 2)%N && (Ascii.eqb p "b" || Ascii.eqb p "B")) in
      if hit then
        match l' with
        | "_"%char :: l'' => l''
        | _ => l'
        end
      else l
  | _ => l
  end.

Definition int_of_chars (base : N) (l : list ascii) : Res Z :=
  let l1 := skip_spaces l in
  let '(sign, l2) :=
    match l1 with
    | "+"%char :: r => (1%Z, r)
    | "-"%char :: r => ((-1)%Z, r)
    | _ => (1%Z, l1)
    end in
  let l3 := strip_prefix base l2 in
  match l3 with
  | "_"%char :: _ => Raise ValueError
  | _ =>
      match scan_digits base false 0%N 0%nat l3 with
      | Some (v, digits, rest) =>
          match digits, skip_spaces rest with
          | S _, [] => Ok (sign * Z.of_N v)%Z
          | _, _ => Raise ValueError
          end
      | None => Raise ValueError
      end
  end.

(** [int(s, base)] *)
Definition int (s : string) (base : N) : Res Z :=
  int_of_chars base (list_ascii_of_string s).

(** *** Formatting of non-negative integers *)

(** [f'{n}'] *)
Definition fmt_d (n : N) : string :=
  DecimalString.NilZero.string_of_uint (N.to_uint n).

Definition hex_digits (n : N) : string :=
  HexadecimalString.NilZero.string_of_uint (N.to_hex_uint n).

(** [f'{n:#x}'] *)
Definition fmt_x (n : N) : string := "0x" ++ hex_digits n.

(** [f'{n:#04x}']: the prefix counts in the width of four. *)
Definition fmt_04x (n : N) : string :=
  let h := hex_digits n in
  match String.length h with
  | 1%nat => "0x0" ++ h
  | _ => "0x" ++ h
  end.

(** [a in b] for two strings: [a] occurs in [b]. *)
Fixpoint str_in (a b : string) : bool :=
  String.prefix a b ||
  match b with
  | EmptyString => false
  | String _ b' => str_in a b'
  end.

Definition lower_char (c : ascii) : ascii :=
  let n := nat_of_ascii c in
  if ((65 <=? n) && (n <=? 90))%nat then ascii_of_nat (n + 32) else c.

(** [s.lower()] *)
Fixpoint lower (s : string) : string :=
  match s with
  | EmptyString => EmptyString
  | String c s' => String (lower_char c) (lower s')
  end.

End Py.

(** ** Module-level tables and [decode_device_id_code] *)

Import Py.

Definition ir : list (string * (string * Z)) :=
  [ ("0011", ("IDCODE", 32%Z));
    ("0111", ("PDICOM", 9%Z));
    ("1111", ("BYPASS", 1%Z)) ].

Definition jedec_id : list (Z * string) :=
  [ (0x1f%Z, "Atmel") ].

Definition avr_idcode : list (Z * string) :=
  [ (0x9642%Z, "ATXMega64A3U");
    (0x9742%Z, "ATXMega128A3U");
    (0x9744%Z, "ATXMega192A3U");
    (0x9842%Z, "ATXMega256A3U") ].

(** [f'{n:#x}'], [f'{n:#04x}'] and [f'{n}'] on Python integers. *)
Definition fmt_hex (z : Z) : string :=
  if (z <? 0)%Z then "-" ++ fmt_x (Z.to_N (- z)) else fmt_x (Z.to_N z).

Definition fmt_hex04 (z : Z) : string :=
  if (z <? 0)%Z then "-" ++ fmt_x (Z.to_N (- z)) else fmt_04x (Z.to_N z).

Definition fmt_int (z : Z) : string :=
  if (z <? 0)%Z then "-" ++ fmt_d (Z.to_N (- z)) else fmt_d (Z.to_N z).

(** The result is the tuple [(id_hex, manufacturer, version, part)]. *)
Definition decode_device_id_code (bits : string)
  : Res (string * string * Z * string) :=
  res_bind (int ("0b" ++ slice bits (Some (-32)%Z) (Some (-28)%Z)) 2)
    (fun version =>
  res_bind (int ("0b" ++ slice bits (Some (-28)%Z) (Some (-12)%Z)) 2)
    (fun part =>
  let part := dict_get Z.eqb avr_idcode part (fmt_hex part) in
  res_bind (int ("0b" ++ slice bits (Some (-12)%Z) (Some (-1)%Z)) 2)
    (fun m =>
  let manufacturer := dict_get Z.eqb jedec_id m "INVALID" in
  res_bind (int ("0b" ++ bits) 2)
    (fun whole =>
  let id_hex := fmt_hex whole in
  Ok (id_hex, manufacturer, version, part))))).

(** ** Annotation classes *)

Module A.
Definition JTAG_ITEM : Z := 0.
Definition JTAG_FIELD : Z := 1.
Definition JTAG_COMMAND : Z := 2.
Definition JTAG_WARNING : Z := 3.
Definition DATA_IN : Z := 4.
Definition PARITY_IN_OK : Z := 5.
Definition PARITY_IN_ERR : Z := 6.
Definition DATA_OUT : Z := 7.
Definition PARITY_OUT_OK : Z := 8.
Definition PARITY_OUT_ERR : Z := 9.
Definition BREAK : Z := 10.
Definition OPCODE : Z := 11.
Definition DATA_PROG : Z := 12.
Definition DATA_DEV : Z := 13.
Definition PDI_BREAK : Z := 14.
Definition ENABLE : Z := 15.
Definition DISABLE : Z := 16.
Definition COMMAND : Z := 17.

Definition PARITY_OK : Z := 0.
Definition PARITY_ERR : Z := 1.
End A.

(** ** The decoder object and its monad *)

(** One call of [self.put(ss, es, self.out_ann, [cls, texts])]. *)
Record Put : Type := mkPut {
  put_ss : Z;
  put_es : Z;
  put_class : Z;
  put_text : list string
}.

(** The fields of [Decoder]; [out] is the stream of annotations handed to
    the sink so far, oldest first. *)
Record Decoder : Type := mkDecoder {
  state : string;
  samplenums : option (list (Z * Z));
  ss : Z;
  es : Z;
  out : list Put
}.

Definition M (T : Type) : Type := Decoder -> Res T * Decoder.

Definition ret {T : Type} (t : T) : M T := fun d => (Ok t, d).

Definition bind {T U : Type} (m : M T) (k : T -> M U) : M U :=
  fun d =>
    match m d with
    | (Ok t, d') => k t d'
    | (Raise e, d') => (Raise e, d')
    end.

Definition lift {T : Type} (r : Res T) : M T := fun d => (r, d).

Notation "x <- c ;; k" := (bind c (fun x => k))
  (at level 61, c at next level, right associativity).
Notation "c ;; k" := (bind c (fun _ => k))
  (at level 61, right associativity).

Definition get_state : M string := fun d => (Ok (state d), d).

Definition set_state (s : string) : M unit :=
  fun d => (Ok tt, mkDecoder s (samplenums d) (ss d) (es d) (out d)).

Definition set_samplenums (l : list (Z * Z)) : M unit :=
  fun d => (Ok tt, mkDecoder (state d) (Some l) (ss d) (es d) (out d)).

Definition set_span (s e : Z) : M unit :=
  fun d => (Ok tt, mkDecoder (state d) (samplenums d) s e (out d)).

Definition emit (p : Put) : M unit :=
  fun d => (Ok tt, mkDecoder (state d) (samplenums d) (ss d) (es d)
                             (out d ++ [p])).

(** [Decoder.reset] *)
Definition reset : M unit :=
  fun d => (Ok tt, mkDecoder "IDLE" None (ss d) (es d) (out d)).

(** The object as [__init__] leaves it. *)
Definition init : Decoder := mkDecoder "IDLE" None 0 0 [].

(** [Decoder.putx] *)
Definition putx (cls : Z) (text : list string) : M unit :=
  fun d => emit (mkPut (ss d) (es d) cls text) d.

(** [self.samplenums[i]] *)
Definition samplenum (i : nat) : M (Z * Z) :=
  fun d =>
    match samplenums d with
    | None => (Raise TypeError, d)
    | Some l => (list_item l i, d)
    end.

(** [Decoder.putf] *)
Definition putf (s e : nat) (cls : Z) (text : list string) : M unit :=
  a <- samplenum s ;;
  b <- samplenum e ;;
  emit (mkPut (fst a) (snd b) cls text).

(** [Decoder.putb] *)
Definition putb (b : nat) (cls : Z) (text : list string) : M unit :=
  putf b b cls text.

(** ** [PDIDecoder] *)

(** [self.decoder.putb], as [PDIDecoder] reaches it. *)
Definition decoder_putb : nat -> Z -> list string -> M unit := putb.

Module PDIDecoder.

Definition ann_class_text : list (Z * list string) :=
  [ (A.PARITY_OK, ["Parity OK"; "Par OK"; "P"]);
    (A.PARITY_ERR, ["Parity error"; "Par ERR"; "PE"]);
    (A.BREAK, ["Break condition"; "BREAK"; "BRK"]) ].

Definition ann_class : list (Z * list (Z * Z)) :=
  [ (A.DATA_IN, [ (A.PARITY_OK, A.PARITY_IN_OK);
                  (A.PARITY_ERR, A.PARITY_IN_ERR) ]);
    (A.DATA_OUT, [ (A.PARITY_OK, A.PARITY_OUT_OK);
                   (A.PARITY_ERR, A.PARITY_OUT_ERR) ]) ].

Definition special_character : list (Z * string) :=
  [ (0xBB%Z, "BREAK");
    (0xDB%Z, "DELAY");
    (0xEB%Z, "EMPTY") ].

(** [PDIDecoder.putb] *)
Definition putb (bit : nat) (dir value : Z) : M unit :=
  cls_of <- lift (dict_item Z.eqb ann_class dir) ;;
  cls <- lift (dict_item Z.eqb cls_of value) ;;
  text <- lift (dict_item Z.eqb ann_class_text value) ;;
  decoder_putb bit cls text.

(** [PDIDecoder.put_special] *)
Definition put_special (data dir : Z) : M unit :=
  let special := dict_get Z.eqb special_character data "INVALID" in
  if (dir =? A.DATA_IN)%Z
  then putx A.DATA_PROG [special]
  else putx A.DATA_DEV [special].

(** [sum(int(bit) for bit in s)] *)
Fixpoint sum_bits (s : string) : Res Z :=
  match s with
  | EmptyString => Ok 0%Z
  | String c s' =>
      res_bind (int (String c "") 10) (fun b =>
      res_bind (sum_bits s') (fun r => Ok (b + r)%Z))
  end.

(** [PDIDecoder.checkParity] *)
Definition checkParity (value : string) (dir : Z) : M (Z * bool) :=
  parity <- lift (res_bind (str_item value 0) (fun c => int c 10)) ;;
  data <- lift (int ("0b" ++ slice value (Some 1%Z) None) 2) ;;
  let dataText := fmt_hex04 data in
  onesCount <- lift (sum_bits (slice value (Some 1%Z) None)) ;;
  let parityOK := (Z.land (onesCount + parity) 1 =? 0)%Z in
  if negb (len value =? 9)%Z then ret (0%Z, false)
  else
    putf 0 7 dir ["Data: " ++ dataText; "D: " ++ dataText; dataText] ;;
    putb 8 dir (if parityOK then A.PARITY_OK else A.PARITY_ERR) ;;
    (if negb parityOK then put_special data dir else ret tt) ;;
    ret (data, parityOK).

(** [PDIDecoder.handleInput] *)
Definition handleInput (value : string) : M unit :=
  r <- checkParity value A.DATA_IN ;;
  if negb (snd r) then ret tt else ret tt.

(** [PDIDecoder.handleOutput] *)
Definition handleOutput (value : string) : M unit :=
  r <- checkParity value A.DATA_OUT ;;
  if negb (snd r) then ret tt else ret tt.

End PDIDecoder.

(** ** [Decoder]: the register dispatcher *)

(** Events of the JTAG decoder below: a state notification carrying the TAP
    state name, or a completed shift carrying the bit string and one sample
    range per bit. *)
Inductive ShiftCmd : Type := IR_TDI | IR_TDO | DR_TDI | DR_TDO.

Inductive Event : Type :=
| NewState (name : string)
| Shift (c : ShiftCmd) (bits : string) (samples : list (Z * Z)).

Definition shift_name (c : ShiftCmd) : string :=
  match c with
  | IR_TDI => "IR TDI"
  | IR_TDO => "IR TDO"
  | DR_TDI => "DR TDI"
  | DR_TDO => "DR TDO"
  end.

(** The [cmd] half of [data]. *)
Definition cmd_of (data : Event) : string :=
  match data with
  | NewState _ => "NEW STATE"
  | Shift c _ _ => shift_name c
  end.

(** [Decoder.handle_reg_bypass] *)
Definition handle_reg_bypass (cmd bits : string) : M unit :=
  putx A.JTAG_ITEM ["BYPASS: " ++ bits].

(** [Decoder.handle_reg_idcode] *)
Definition handle_reg_idcode (cmd bits : string) : M unit :=
  r <- lift (decode_device_id_code bits) ;;
  let '(id_hex, manuf, vers, part) := r in
  putb 0 A.JTAG_FIELD ["Reserved"; "Res"; "R"] ;;
  putf 1 11 A.JTAG_FIELD ["Manufacturer: " ++ manuf; "Manuf"; "M"] ;;
  putf 12 27 A.JTAG_FIELD ["Part: " ++ part; "Part"; "P"] ;;
  putf 28 31 A.JTAG_FIELD ["Version: " ++ fmt_int vers; "Version"; "V"] ;;
  putx A.JTAG_ITEM ["IDCODE: " ++ id_hex] ;;
  putx A.JTAG_COMMAND
       ["IDCODE: " ++ id_hex ++ " (" ++ manuf ++ ": " ++ part ++ "@r"
        ++ fmt_int vers ++ ")"].

(** [getattr(self, name)] for the [handle_reg_*] methods. *)
Definition getattr_handle_reg (name : string)
  : M (string -> string -> M unit) :=
  if name =? "handle_reg_bypass" then ret handle_reg_bypass
  else if name =? "handle_reg_idcode" then ret handle_reg_idcode
  else lift (Raise AttributeError).

(** [Decoder.decode].  The constructor of the event gives [cmd] and the
    shape of [val]: for every command but NEW STATE, [val] is unpacked into
    the bit string and the sample ranges, which are reversed in place. *)
Definition decode (ss es : Z) (data : Event) : M unit :=
  set_span ss es ;;
  let cmd := cmd_of data in
  val <- match data with
         | NewState name => ret name
         | Shift _ bits samples => set_samplenums (rev samples) ;; ret bits
         end ;;
  (if cmd =? "IR TDI" then
     let st := fst (dict_get String.eqb ir
                             (slice val (Some 0%Z) (Some 4%Z))
                             ("UNKNOWN", 0%Z)) in
     set_state st ;;
     putx 2 ["IR: " ++ st]
   else ret tt) ;;
  st <- get_state ;;
  if st =? "BYPASS" then
    if negb (cmd =? "DR TDI") then ret tt
    else
      handle_reg_bypass cmd val ;;
      set_state "IDLE"
  else if str_in st "IDCODE" then
    if negb (cmd =? "DR TDO") then ret tt
    else
      handle_reg <- getattr_handle_reg ("handle_reg_" ++ lower st) ;;
      handle_reg cmd val ;;
      set_state "IDLE"
  else if st =? "PDICOM" then
    if negb ((cmd =? "DR TDI") || (cmd =? "DR TDO")) then ret tt
    else if cmd =? "DR TDI" then PDIDecoder.handleInput val
    else
      putx A.JTAG_COMMAND ["PDICOM"] ;;
      PDIDecoder.handleOutput val
  else ret tt.

(** Running the decoder over a stream of events; the stream stops at the
    first exception. *)
Fixpoint run (evs : list (Z * Z * Event)) : M unit :=
  match evs with
  | [] => ret tt
  | (s, e, ev) :: evs' => decode s e ev ;; run evs'
  end.

(** ** Bit strings and their values *)

Definition is_bit (c : ascii) : bool :=
  Ascii.eqb c "0" || Ascii.eqb c "1".

(** A string of ['0'] and ['1'] characters only. *)
Fixpoint bit_string (s : string) : bool :=
  match s with
  | EmptyString => true
  | String c s' => is_bit c && bit_string s'
  end.

Definition bit_val (c : ascii) : Z :=
  if Ascii.eqb c "1" then 1%Z else 0%Z.

Fixpoint bin_value_from (acc : Z) (s : string) : Z :=
  match s with
  | EmptyString => acc
  | String c s' => bin_value_from (2 * acc + bit_val c)%Z s'
  end.

(** The integer a bit string denotes, most significant bit first. *)
Definition bin_value (s : string) : Z := bin_value_from 0%Z s.

(** The number of ['1'] characters of a string. *)
Fixpoint popcount (s : string) : Z :=
  match s with
  | EmptyString => 0%Z
  | String c s' => (bit_val c + popcount s')%Z
  end.

Definition flip_bit (c : ascii) : ascii :=
  if Ascii.eqb c "1" then "0"%char else "1"%char.

(** The string with the bit at position [i] inverted. *)
Fixpoint flip_at (i : nat) (s : string) : string :=
  match s, i with
  | EmptyString, _ => EmptyString
  | String c s', O => String (flip_bit c) s'
  | String c s', S i' => String c (flip_at i' s')
  end.

(** What a run returned, when it returned. *)
Definition returned {T : Type} (x : Res T * Decoder) : option T :=
  match fst x with
  | Ok t => Some t
  | Raise _ => None
  end.

(** The annotations a run added to those of [d]. *)
Definition emitted {T : Type} (d : Decoder) (x : Res T * Decoder)
  : list Put :=
  skipn (List.length (out d)) (out (snd x)).

(** The labels of the special characters, by cases. *)
Definition special_label (data : Z) : string :=
  if (data =? 0xBB)%Z then "BREAK"
  else if (data =? 0xDB)%Z then "DELAY"
  else if (data =? 0xEB)%Z then "EMPTY"
  else "INVALID".

Definition is_special_class (p : Put) : bool :=
  (put_class p =? A.DATA_PROG)%Z || (put_class p =? A.DATA_DEV)%Z.

(** The annotations of a well-formed frame, as [checkParity] emits them
    with the sample ranges [sn] in place. *)
Definition data_annotation (sn : list (Z * Z)) (dir data : Z) : Put :=
  let dataText := fmt_hex04 data in
  mkPut (fst (nth 0 sn (0, 0)%Z)) (snd (nth 7 sn (0, 0)%Z)) dir
        ["Data: " ++ dataText; "D: " ++ dataText; dataText].

Definition parity_annotation (sn : list (Z * Z)) (dir : Z) (ok : bool)
  : Put :=
  mkPut (fst (nth 8 sn (0, 0)%Z)) (snd (nth 8 sn (0, 0)%Z))
        (if (dir =? A.DATA_IN)%Z
         then if ok then A.PARITY_IN_OK else A.PARITY_IN_ERR
         else if ok then A.PARITY_OUT_OK else A.PARITY_OUT_ERR)
        (if ok then ["Parity OK"; "Par OK"; "P"]
         else ["Parity error"; "Par ERR"; "PE"]).

Definition special_annotation (d : Decoder) (dir data : Z) : Put :=
  mkPut (ss d) (es d)
        (if (dir =? A.DATA_IN)%Z then A.DATA_PROG else A.DATA_DEV)
        [special_label data].

(** The decoder [d] with more annotations emitted. *)
Definition with_out (d : Decoder) (more : list Put) : Decoder :=
  mkDecoder (state d) (samplenums d) (ss d) (es d) (out d ++ more).

(** A PDI session at work: PDICOM selected, nine sample ranges in place. *)
Definition nine_samples : list (Z * Z) :=
  [ (80, 89); (70, 79); (60, 69); (50, 59); (40, 49);
    (30, 39); (20, 29); (10, 19); (0, 9) ]%Z.

Definition pdi_session : Decoder :=
  mkDecoder "PDICOM" (Some nine_samples) 0 89 [].

(** A decoder with the register [st] selected and nothing emitted yet. *)
Definition selected (st : string) : Decoder := mkDecoder st None 0 0 [].

(** The 32 sample ranges of an IDCODE shift, first-shifted bit first. *)
Definition idcode_samples : list (Z * Z) :=
  map (fun i => (Z.of_nat i * 10, Z.of_nat i * 10 + 9)%Z) (seq 0 32).

(** A data-register shift, in either direction. *)
Definition is_dr_shift (x : Z * Z * Event) : bool :=
  match snd x with
  | Shift DR_TDI _ _ | Shift DR_TDO _ _ => true
  | _ => false
  end.

(** A computation that touches the decoder only by emitting annotations. *)
Definition only_emits {T : Type} (m : M T) : Prop :=
  forall d, exists more, snd (m d) = with_out d more.

(** The register names the dispatcher moves between. *)
Definition state_names : list string :=
  ["IDLE"; "BYPASS"; "IDCODE"; "PDICOM"; "UNKNOWN"].

(** ** The declared annotation classes *)

(** [Decoder.annotations] *)
Definition annotations : list (string * string) :=
  [ ("item", "Item");
    ("field", "Field");
    ("command", "Command");
    ("warning", "Warning");
    ("data-in", "PDI data in");
    ("parity-in-ok", "Parity OK");
    ("parity-in-err", "Parity error");
    ("data-out", "PDI data out");
    ("parity-out-ok", "Parity OK");
    ("parity-out-err", "Parity error");
    ("break", "BREAK condition");
    ("opcode", "Instruction opcode");
    ("data-prog", "Programmer data");
    ("data-dev", "Device data");
    ("pdi-break", "BREAK at PDI level");
    ("enable", "Enable PDI");
    ("disable", "Disable PDI");
    ("cmd-data", "PDI command with data") ].

(** [Decoder.annotation_rows] *)
Definition annotation_rows : list (string * string * list Z) :=
  [ ("items", "Items", [A.JTAG_ITEM]);
    ("fields", "Fields", [A.JTAG_FIELD]);
    ("commands", "Commands", [A.JTAG_COMMAND]);
    ("warnings", "Warnings", [A.JTAG_WARNING]);
    ("data_in", "PDI Data (In)",
     [A.DATA_IN; A.PARITY_IN_OK; A.PARITY_IN_ERR]);
    ("data_out", "PDI Data (Out)",
     [A.DATA_OUT; A.PARITY_OUT_OK; A.PARITY_OUT_ERR]);
    ("data_fields", "PDI Data Fields", [A.BREAK]);
    ("pdi_fields", "PDI Fields", [A.OPCODE; A.PDI_BREAK]);
    ("pdi_prog", "PDI Programmer In", [A.DATA_PROG]);
    ("pdi_dev", "PDI Device Out", [A.DATA_DEV]);
    ("pdi_cmds", "PDI Commands", [A.ENABLE; A.DISABLE; A.COMMAND]) ].

(** The number of rows that list the class [cls]. *)
Definition row_count (cls : Z) : nat :=
  List.length
    (filter (fun r => existsb (Z.eqb cls) (snd r)) annotation_rows).

(** An annotation the sink accepts: its class is an index into
    [annotations], one row shows it, and it carries a text. *)
Definition declared (p : Put) : bool :=
  (0 <=? put_class p)%Z
  && (put_class p <? Z.of_nat (List.length annotations))%Z
  && (row_count (put_class p) =? 1)%nat
  && match put_text p with
     | [] => false
     | _ :: _ => true
     end.

(** A result that is a value, or one of the two exceptions that a bit
    string or a sample list of the wrong shape can cause. *)
Definition benign {T : Type} (r : Res T) : Prop :=
  match r with
  | Ok _ => True
  | Raise e => e = ValueError \/ e = IndexError
  end.

(** A computation that, once the sample ranges are in place, only emits
    declared annotations and raises nothing but the benign exceptions. *)
Definition tame {T : Type} (m : M T) : Prop :=
  forall d l, samplenums d = Some l ->
              exists more,
                snd (m d) = with_out d more
                /\ forallb declared more = true
                /\ benign (fst (m d)).

Definition is_ir_tdi (x : Z * Z * Event) : bool :=
  match snd x with
  | Shift IR_TDI _ _ => true
  | _ => false
  end.

(** A data-register shift of nine bits with a sample range for each. *)
Definition is_pdi_frame (x : Z * Z * Event) : bool :=
  match snd x with
  | Shift DR_TDI bits sn | Shift DR_TDO bits sn =>
      bit_string bits && (String.length bits =? 9)%nat
      && (9 <=? List.length sn)%nat
  | _ => false
  end.

(** The lower-case hexadecimal digit of a value from 0 to 15. *)
Definition hex_char (n : Z) : ascii :=
  match n with
  | 0 => "0" | 1 => "1" | 2 => "2" | 3 => "3"
  | 4 => "4" | 5 => "5" | 6 => "6" | 7 => "7"
  | 8 => "8" | 9 => "9" | 10 => "a" | 11 => "b"
  | 12 => "c" | 13 => "d" | 14 => "e" | 15 => "f"
  | _ => "?"
  end%Z%char.

(** A byte written as [0x] and its two hexadecimal digits, high digit
    first. *)
Definition byte_text (data : Z) : string :=
  String "0" (String "x"
    (String (hex_char (data / 16)) (String (hex_char (data mod 16)) ""))).

(** * Properties *)

(** ** Bit strings *)

Lemma is_bit_cases (c : ascii) :
  is_bit c = true -> c = "0"%char \/ c = "1"%char.
Proof.
  unfold is_bit. intros H.
  apply orb_true_iff in H.
  destruct H as [H | H]; apply Ascii.eqb_eq in H; auto.
Qed.

Lemma bit_string_cons (c : ascii) (s : string) :
  bit_string (String c s) = true ->
  (c = "0"%char \/ c = "1"%char) /\ bit_string s = true.
Proof.
  simpl. intros H. apply andb_true_iff in H. destruct H as [Hc Hs].
  split; [apply is_bit_cases; exact Hc | exact Hs].
Qed.

Lemma bit_string_app (s t : string) :
  bit_string (s ++ t) = bit_string s && bit_string t.
Proof.
  induction s as [| c s IH]; simpl; [reflexivity |].
  rewrite IH. apply andb_assoc.
Qed.

Lemma bit_string_substring (s : string) :
  bit_string s = true ->
  forall n m, bit_string (substring n m s) = true.
Proof.
  induction s as [| c s IH]; intros H n m.
  - destruct n, m; reflexivity.
  - apply andb_true_iff in H. destruct H as [Hc Hs].
    destruct n as [| n]; destruct m as [| m]; simpl; auto.
    rewrite Hc. simpl. apply IH. exact Hs.
Qed.

Lemma length_substring (s : string) :
  forall n m, (n + m <= String.length s)%nat ->
              String.length (substring n m s) = m.
Proof.
  induction s as [| c s IH]; intros n m H; simpl in H.
  - assert (n = 0%nat) by lia. assert (m = 0%nat) by lia. subst. reflexivity.
  - destruct n as [| n]; destruct m as [| m]; simpl; auto.
    + f_equal. apply (IH 0%nat). lia.
    + apply IH. lia.
    + apply IH. lia.
Qed.

Lemma substring_all (s : string) :
  substring 0 (String.length s) s = s.
Proof.
  induction s as [| c s IH]; simpl; [reflexivity | now rewrite IH].
Qed.

(** ** [int] on bit strings *)

Lemma scan_digits_bit_step (c : ascii) (l : list ascii) (p : bool)
      (acc : N) (digits : nat) :
  is_bit c = true ->
  scan_digits 2 p acc digits (c :: l)
  = scan_digits 2 false (acc * 2 + Z.to_N (bit_val c)) (S digits) l.
Proof.
  intros H. destruct (is_bit_cases _ H); subst c; reflexivity.
Qed.

Lemma bit_val_range (c : ascii) : (0 <= bit_val c <= 1)%Z.
Proof. unfold bit_val. destruct (Ascii.eqb c "1"); lia. Qed.

Lemma scan_digits_bits (l : string) :
  bit_string l = true ->
  forall acc digits,
    scan_digits 2 false acc digits (list_ascii_of_string l)
    = Some (Z.to_N (bin_value_from (Z.of_N acc) l),
            (digits + String.length l)%nat, []).
Proof.
  induction l as [| c l IH]; intros H acc digits.
  - simpl. rewrite N2Z.id. do 3 f_equal. lia.
  - apply andb_true_iff in H. destruct H as [Hc Hl].
    cbn [list_ascii_of_string].
    rewrite (scan_digits_bit_step _ _ _ _ _ Hc), (IH Hl).
    cbn [bin_value_from String.length].
    pose proof (bit_val_range c).
    replace (Z.of_N (acc * 2 + Z.to_N (bit_val c)))
      with (2 * Z.of_N acc + bit_val c)%Z by lia.
    do 3 f_equal. lia.
Qed.

Lemma bin_value_from_nonneg (s : string) :
  forall acc, (0 <= acc)%Z -> (0 <= bin_value_from acc s)%Z.
Proof.
  induction s as [| c s IH]; intros acc H; cbn [bin_value_from]; [exact H |].
  apply IH. pose proof (bit_val_range c). lia.
Qed.

Lemma bin_value_nonneg (s : string) : (0 <= bin_value s)%Z.
Proof. apply bin_value_from_nonneg. lia. Qed.

Lemma int_of_chars_0b (c : ascii) (l : list ascii) :
  is_bit c = true ->
  int_of_chars 2 ("0"%char :: "b"%char :: c :: l)
  = match scan_digits 2 false 0 0 (c :: l) with
    | Some (v, S _, rest) =>
        match skip_spaces rest with
        | [] => Ok (1 * Z.of_N v)%Z
        | _ :: _ => Raise ValueError
        end
    | _ => Raise ValueError
    end.
Proof.
  intros H. destruct (is_bit_cases _ H); subst c; reflexivity.
Qed.

(** [int(f'0b{s}', 2)] is the value of a non-empty bit string. *)
Lemma int_0b_bits (s : string) :
  bit_string s = true -> s <> "" ->
  int ("0b" ++ s) 2 = Ok (bin_value s).
Proof.
  intros H Hne.
  destruct s as [| c s]; [congruence |].
  pose proof (scan_digits_bits (String c s) H 0%N 0%nat) as Hscan.
  pose proof (bin_value_nonneg (String c s)) as Hpos.
  apply andb_true_iff in H. destruct H as [Hc _].
  change (Z.of_N 0) with 0%Z in Hscan.
  change (bin_value_from 0) with bin_value in Hscan.
  cbn [list_ascii_of_string String.length Nat.add] in Hscan.
  unfold int.
  change (list_ascii_of_string ("0b" ++ String c s))
    with ("0"%char :: "b"%char :: c :: list_ascii_of_string s).
  rewrite (int_of_chars_0b _ _ Hc), Hscan.
  cbn [skip_spaces]. f_equal. rewrite Z2N.id by exact Hpos. lia.
Qed.

(** [int(c)] of a single bit character. *)
Lemma int_bit_char (c : ascii) :
  is_bit c = true -> int (String c "") 10 = Ok (bit_val c).
Proof.
  intros H. destruct (is_bit_cases _ H); subst c; reflexivity.
Qed.

Lemma sum_bits_popcount (s : string) :
  bit_string s = true -> PDIDecoder.sum_bits s = Ok (popcount s).
Proof.
  induction s as [| c s IH]; intros H; [reflexivity |].
  apply andb_true_iff in H. destruct H as [Hc Hs].
  cbn [PDIDecoder.sum_bits popcount].
  rewrite (int_bit_char _ Hc). cbn [res_bind].
  rewrite (IH Hs). reflexivity.
Qed.

(** ** Slices and items *)

Lemma str_item_0 (c : ascii) (s : string) :
  str_item (String c s) 0 = Ok (String c "").
Proof.
  unfold str_item, len. cbn [String.length Z.ltb Z.compare Z.leb andb].
  destruct (0 <? Z.of_nat (S (String.length s)))%Z eqn:E; [reflexivity |].
  apply Z.ltb_ge in E. lia.
Qed.

Lemma slice_tail (c : ascii) (s : string) :
  slice (String c s) (Some 1%Z) None = s.
Proof.
  unfold slice, clamp, len. cbn [String.length Z.ltb Z.compare].
  rewrite Z.min_l by lia.
  destruct (1 <? Z.of_nat (S (String.length s)))%Z eqn:E.
  - apply Z.ltb_lt in E.
    replace (Z.to_nat (Z.of_nat (S (String.length s)) - 1))
      with (String.length s) by lia.
    change (Z.to_nat 1) with 1%nat. cbn [substring].
    apply substring_all.
  - apply Z.ltb_ge in E. destruct s; [reflexivity | simpl in E; lia].
Qed.

Lemma land_1_even (x : Z) : (Z.land x 1 =? 0)%Z = Z.even x.
Proof.
  change 1%Z with (Z.ones 1). rewrite Z.land_ones by lia.
  change (2 ^ 1)%Z with 2%Z. rewrite Zmod_even.
  destruct (Z.even x); reflexivity.
Qed.

(** ** Emitting annotations *)

Lemma samplenum_ok (d : Decoder) (sn : list (Z * Z)) (i : nat) :
  samplenums d = Some sn -> (i < List.length sn)%nat ->
  samplenum i d = (Ok (nth i sn (0, 0)%Z), d).
Proof.
  intros Hs Hi. unfold samplenum, list_item. rewrite Hs.
  rewrite (nth_error_nth' sn (0, 0)%Z Hi). reflexivity.
Qed.

Lemma putf_ok (d : Decoder) (sn : list (Z * Z)) (s e : nat)
      (cls : Z) (text : list string) :
  samplenums d = Some sn ->
  (s < List.length sn)%nat -> (e < List.length sn)%nat ->
  putf s e cls text d
  = (Ok tt, with_out d [mkPut (fst (nth s sn (0, 0)%Z))
                              (snd (nth e sn (0, 0)%Z)) cls text]).
Proof.
  intros Hs H1 H2. unfold putf, bind.
  rewrite (samplenum_ok d sn s Hs H1), (samplenum_ok d sn e Hs H2).
  reflexivity.
Qed.

Lemma with_out_app (d : Decoder) (a b : list Put) :
  with_out (with_out d a) b = with_out d (a ++ b).
Proof. unfold with_out. cbn. now rewrite <- app_assoc. Qed.

Lemma with_out_nil (d : Decoder) : with_out d [] = d.
Proof. destruct d. unfold with_out. cbn. now rewrite app_nil_r. Qed.

(** ** [checkParity] *)

Lemma special_character_get (data : Z) :
  dict_get Z.eqb PDIDecoder.special_character data "INVALID"
  = special_label data.
Proof.
  unfold special_label. cbn [dict_get PDIDecoder.special_character].
  rewrite !(Z.eqb_sym data). reflexivity.
Qed.

Lemma put_special_run (data dir : Z) (d : Decoder) :
  PDIDecoder.put_special data dir d
  = (Ok tt, with_out d [special_annotation d dir data]).
Proof.
  unfold PDIDecoder.put_special, special_annotation.
  rewrite special_character_get.
  destruct (dir =? A.DATA_IN)%Z; reflexivity.
Qed.


(** The run of [checkParity] on a nine-bit frame, with one sample range per
    bit in place. *)
Lemma checkParity_frame (p : ascii) (d : string) (dir : Z)
      (dec : Decoder) (sn : list (Z * Z)) :
  is_bit p = true -> bit_string d = true -> String.length d = 8%nat ->
  dir = A.DATA_IN \/ dir = A.DATA_OUT ->
  samplenums dec = Some sn -> (9 <= List.length sn)%nat ->
  let data := bin_value d in
  let ok := Z.even (popcount d + bit_val p) in
  PDIDecoder.checkParity (String p d) dir dec
  = (Ok (data, ok),
     with_out dec
       (data_annotation sn dir data :: parity_annotation sn dir ok
        :: if ok then [] else [special_annotation dec dir data])).
Proof.
  intros Hp Hd Hlen Hdir Hsn Hn data ok.
  assert (Hne : d <> "") by (destruct d; [discriminate | congruence]).
  unfold PDIDecoder.checkParity, bind, lift.
  rewrite str_item_0. cbn [res_bind].
  rewrite (int_bit_char _ Hp), slice_tail, (int_0b_bits _ Hd Hne).
  rewrite (sum_bits_popcount _ Hd), land_1_even.
  fold data. fold ok.
  unfold len. cbn [String.length]. rewrite Hlen.
  cbn [Z.of_nat Pos.of_succ_nat Pos.succ Z.eqb Pos.eqb negb].
  rewrite (putf_ok dec sn 0 7 _ _ Hsn) by lia.
  unfold PDIDecoder.putb, decoder_putb, putb, bind, lift.
  destruct Hdir as [Hdir | Hdir]; subst dir; destruct ok;
    cbn [dict_item PDIDecoder.ann_class PDIDecoder.ann_class_text
         A.DATA_IN A.DATA_OUT A.PARITY_OK A.PARITY_ERR A.BREAK Z.eqb Pos.eqb
         negb];
    erewrite (putf_ok (with_out dec _) sn 8 8 _ _ Hsn) by lia;
    rewrite ?put_special_run; unfold ret;
    rewrite !with_out_app; reflexivity.
Qed.

Lemma emitted_with_out {T : Type} (d : Decoder) (r : Res T)
      (more : list Put) :
  emitted d (r, with_out d more) = more.
Proof.
  unfold emitted, with_out. cbn [snd out].
  rewrite skipn_app, skipn_all, Nat.sub_diag. reflexivity.
Qed.

(** A frame of the wrong length that still parses is dropped: nothing is
    emitted and the result is [(0, False)]. *)
Lemma checkParity_wrong_length (p : ascii) (d : string) (dir : Z)
      (dec : Decoder) :
  is_bit p = true -> bit_string d = true -> d <> "" ->
  String.length d <> 8%nat ->
  PDIDecoder.checkParity (String p d) dir dec = (Ok (0%Z, false), dec).
Proof.
  intros Hp Hd Hne Hlen.
  unfold PDIDecoder.checkParity, bind, lift.
  rewrite str_item_0. cbn [res_bind].
  rewrite (int_bit_char _ Hp), slice_tail, (int_0b_bits _ Hd Hne).
  rewrite (sum_bits_popcount _ Hd).
  unfold len. cbn [String.length].
  destruct (Z.of_nat (S (String.length d)) =? 9)%Z eqn:E.
  - apply Z.eqb_eq in E. lia.
  - reflexivity.
Qed.

(** Whatever [checkParity] does with a string that is not nine characters
    long, it leaves the decoder as it found it. *)
Lemma checkParity_malformed_silent (value : string) (dir : Z)
      (dec : Decoder) :
  String.length value <> 9%nat ->
  snd (PDIDecoder.checkParity value dir dec) = dec.
Proof.
  intros Hlen.
  unfold PDIDecoder.checkParity, bind, lift.
  destruct (res_bind (str_item value 0) (fun c => int c 10));
    [| reflexivity].
  destruct (int ("0b" ++ slice value (Some 1%Z) None) 2); [| reflexivity].
  destruct (PDIDecoder.sum_bits (slice value (Some 1%Z) None));
    [| reflexivity].
  unfold len.
  destruct (Z.of_nat (String.length value) =? 9)%Z eqn:E.
  - apply Z.eqb_eq in E. lia.
  - reflexivity.
Qed.

(** ** Parity under a single bit flip *)

Lemma bit_val_flip (c : ascii) : bit_val (flip_bit c) = (1 - bit_val c)%Z.
Proof.
  unfold flip_bit, bit_val. destruct (Ascii.eqb c "1"); reflexivity.
Qed.

Lemma is_bit_flip (c : ascii) : is_bit (flip_bit c) = true.
Proof.
  unfold flip_bit. destruct (Ascii.eqb c "1"); reflexivity.
Qed.

Lemma length_flip_at (s : string) :
  forall i, String.length (flip_at i s) = String.length s.
Proof.
  induction s as [| c s IH]; intros [| i]; simpl; auto.
Qed.

Lemma bit_string_flip_at (s : string) :
  bit_string s = true -> forall i, bit_string (flip_at i s) = true.
Proof.
  induction s as [| c s IH]; intros H [| i]; try reflexivity;
    apply andb_true_iff in H; destruct H as [Hc Hs];
    cbn [flip_at bit_string].
  - rewrite is_bit_flip. exact Hs.
  - rewrite Hc. apply IH. exact Hs.
Qed.

Lemma popcount_flip_at (s : string) :
  forall i, (i < String.length s)%nat ->
            Z.even (popcount (flip_at i s)) = negb (Z.even (popcount s)).
Proof.
  induction s as [| c s IH]; intros i Hi; simpl in Hi; [lia |].
  destruct i as [| i]; cbn [flip_at popcount].
  - rewrite bit_val_flip.
    replace (1 - bit_val c + popcount s)%Z
      with (Z.succ (bit_val c + popcount s) + 2 * (- bit_val c))%Z by lia.
    rewrite Z.even_add_mul_2, Z.even_succ, <- Z.negb_even. reflexivity.
  - rewrite !Z.even_add, IH by lia.
    destruct (Z.even (bit_val c)), (Z.even (popcount s)); reflexivity.
Qed.

Lemma popcount_frame (p : ascii) (d : string) :
  (popcount d + bit_val p)%Z = popcount (String p d).
Proof. cbn [popcount]. lia. Qed.

(** [int] raises nothing but [ValueError]. *)
Lemma int_raises_ValueError (s : string) (base : N) (e : Exn) :
  int s base = Raise e -> e = ValueError.
Proof.
  unfold int, int_of_chars. intros H.
  repeat match type of H with
         | context [match ?x with _ => _ end] => destruct x
         end; congruence.
Qed.

(** ** The frame validator: claims *)

(** C1 (the code departs from the claim): [checkParity] reads [value[0]] and
    parses [value[1:]] before it compares the length with nine, so the guard
    does not cover frames of length zero or one.  The empty frame raises
    [IndexError] at [value[0]]; every frame of one character raises
    [ValueError], at [int(value[0])] or at [int('0b', 2)].  The decoder
    object is left as it was, and the exception leaves [decode]: a one-bit
    data-register shift under PDICOM ends the run. *)
Theorem checkParity_short_frame_raises (dir : Z) (dec : Decoder) :
  PDIDecoder.checkParity "" dir dec = (Raise IndexError, dec)
  /\ (forall c : ascii,
        PDIDecoder.checkParity (String c "") dir dec
        = (Raise ValueError, dec))
  /\ PDIDecoder.checkParity "1" dir dec = (Raise ValueError, dec)
  /\ fst (run [ (0, 39, Shift IR_TDI "0111"
                              [(0, 9); (10, 19); (20, 29); (30, 39)]);
                (40, 49, Shift DR_TDI "1" [(40, 49)]) ]%Z init)
     = Raise ValueError.
Proof.
  split; [reflexivity |]. split; [| split; reflexivity].
  intros c. unfold PDIDecoder.checkParity, bind, lift.
  rewrite str_item_0, slice_tail. cbn [res_bind].
  destruct (int (String c "") 10) as [z | e] eqn:E.
  - reflexivity.
  - apply int_raises_ValueError in E. subst e. reflexivity.
Qed.

Lemma flip_at_frame (p : ascii) (d : string) (i : nat) :
  is_bit p = true -> bit_string d = true ->
  exists p' d',
    flip_at i (String p d) = String p' d'
    /\ is_bit p' = true /\ bit_string d' = true
    /\ String.length d' = String.length d.
Proof.
  intros Hp Hd. destruct i as [| i].
  - exists (flip_bit p), d. cbn [flip_at].
    repeat split; [apply is_bit_flip | exact Hd].
  - exists p, (flip_at i d). cbn [flip_at].
    repeat split;
      [exact Hp | apply bit_string_flip_at; exact Hd | apply length_flip_at].
Qed.

(** C2: for a frame of nine ['0']/['1'] characters, parity bit [p] first and
    the data bits [d] after it, [checkParity] returns the integer value of
    [d] read most significant bit first, and a parity flag that holds exactly
    when the number of set data bits plus the parity bit is even; inverting
    any one of the nine bits inverts the flag.  The decoder holds one sample
    range per bit, as the event that carried the frame delivered them. *)
Theorem checkParity_even_parity (p : ascii) (d : string) (dir : Z)
        (dec : Decoder) (sn : list (Z * Z)) :
  is_bit p = true -> bit_string d = true -> String.length d = 8%nat ->
  dir = A.DATA_IN \/ dir = A.DATA_OUT ->
  samplenums dec = Some sn -> (9 <= List.length sn)%nat ->
  exists ok : bool,
    returned (PDIDecoder.checkParity (String p d) dir dec)
    = Some (bin_value d, ok)
    /\ (ok = true <-> Z.Even (popcount d + bit_val p))
    /\ forall i, (i < 9)%nat ->
         option_map snd
           (returned (PDIDecoder.checkParity (flip_at i (String p d))
                                             dir dec))
         = Some (negb ok).
Proof.
  intros Hp Hd Hlen Hdir Hsn Hn.
  exists (Z.even (popcount d + bit_val p)).
  split; [| split].
  - rewrite (checkParity_frame p d dir dec sn) by assumption. reflexivity.
  - apply Z.even_spec.
  - intros i Hi.
    destruct (flip_at_frame p d i Hp Hd) as (p' & d' & Hfl & Hp' & Hd' & Hl').
    rewrite Hfl.
    rewrite (checkParity_frame p' d' dir dec sn)
      by (try assumption; congruence).
    unfold returned. cbn [fst option_map snd]. f_equal.
    rewrite !popcount_frame, <- Hfl.
    apply popcount_flip_at. cbn [String.length]. lia.
Qed.

Lemma checkParity_even_parity_witness :
  is_bit "1" = true /\ bit_string "00000000" = true
  /\ String.length "00000000" = 8%nat
  /\ samplenums pdi_session = Some nine_samples
  /\ (9 <= List.length nine_samples)%nat
  /\ exists ok : bool,
       returned (PDIDecoder.checkParity "100000000" A.DATA_IN pdi_session)
       = Some (bin_value "00000000", ok)
       /\ (ok = true <-> Z.Even (popcount "00000000" + bit_val "1"))
       /\ forall i, (i < 9)%nat ->
            option_map snd
              (returned (PDIDecoder.checkParity
                           (flip_at i "100000000") A.DATA_IN pdi_session))
            = Some (negb ok).
Proof.
  repeat (split; [reflexivity |]).
  apply (checkParity_even_parity "1" "00000000" A.DATA_IN pdi_session
                                 nine_samples);
    try reflexivity.
  left; reflexivity.
Defined.

(** C5: for a nine-bit frame with parity bit [p] and data bits [d],
    [checkParity] emits the data annotation and the parity annotation, and a
    special-character annotation after them exactly when the parity check
    fails, that is when the number of set data bits plus the parity bit is
    odd.  Its label is BREAK for the byte 0xBB, DELAY for 0xDB, EMPTY for
    0xEB and INVALID for any other byte; its class is programmer data for a
    frame sent to the device and device data for a frame sent to the host. *)
Theorem checkParity_special_character (p : ascii) (d : string) (dir : Z)
        (dec : Decoder) (sn : list (Z * Z)) :
  is_bit p = true -> bit_string d = true -> String.length d = 8%nat ->
  dir = A.DATA_IN \/ dir = A.DATA_OUT ->
  samplenums dec = Some sn -> (9 <= List.length sn)%nat ->
  let data := bin_value d in
  let ok := Z.even (popcount d + bit_val p) in
  let run := PDIDecoder.checkParity (String p d) dir dec in
  returned run = Some (data, ok)
  /\ existsb is_special_class (emitted dec run)
     = Z.odd (popcount d + bit_val p)
  /\ (Z.Even (popcount d + bit_val p) ->
      emitted dec run
      = [data_annotation sn dir data; parity_annotation sn dir true])
  /\ (Z.Odd (popcount d + bit_val p) ->
      exists cls label,
        emitted dec run
        = [data_annotation sn dir data; parity_annotation sn dir false;
           mkPut (ss dec) (es dec) cls [label]]
        /\ (dir = A.DATA_IN -> cls = A.DATA_PROG)
        /\ (dir = A.DATA_OUT -> cls = A.DATA_DEV)
        /\ (data = 0xBB%Z -> label = "BREAK")
        /\ (data = 0xDB%Z -> label = "DELAY")
        /\ (data = 0xEB%Z -> label = "EMPTY")
        /\ (data <> 0xBB%Z -> data <> 0xDB%Z -> data <> 0xEB%Z ->
            label = "INVALID")).
Proof.
  intros Hp Hd Hlen Hdir Hsn Hn data ok run.
  unfold run. rewrite (checkParity_frame p d dir dec sn) by assumption.
  fold data ok. rewrite emitted_with_out.
  split; [reflexivity |].
  rewrite <- Z.negb_even. fold ok.
  assert (Heven : Z.Even (popcount d + bit_val p) <-> ok = true)
    by (symmetry; apply Z.even_spec).
  assert (Hodd : Z.Odd (popcount d + bit_val p) <-> ok = false).
  { rewrite <- Z.odd_spec, <- Z.negb_even. fold ok.
    destruct ok; cbn; split; congruence. }
  destruct ok.
  - split; [destruct Hdir; subst dir; reflexivity |].
    split; [reflexivity |].
    intros H. apply Hodd in H. discriminate H.
  - split; [destruct Hdir; subst dir; reflexivity |].
    split; [intros H; apply Heven in H; discriminate H |].
    intros _.
    exists (if (dir =? A.DATA_IN)%Z then A.DATA_PROG else A.DATA_DEV),
           (special_label data).
    split; [reflexivity |].
    split; [intros ->; reflexivity |].
    split; [intros ->; reflexivity |].
    unfold special_label.
    split; [intros ->; reflexivity |].
    split; [intros ->; reflexivity |].
    split; [intros ->; reflexivity |].
    intros H1 H2 H3.
    apply Z.eqb_neq in H1, H2, H3. rewrite H1, H2, H3. reflexivity.
Qed.

Lemma checkParity_special_character_witness :
  is_bit "1" = true /\ bit_string "10111011" = true
  /\ String.length "10111011" = 8%nat
  /\ samplenums pdi_session = Some nine_samples
  /\ (9 <= List.length nine_samples)%nat
  /\ let run := PDIDecoder.checkParity "110111011" A.DATA_OUT pdi_session in
     returned run = Some (0xBB%Z, false)
     /\ existsb is_special_class (emitted pdi_session run) = true
     /\ exists cls label,
          emitted pdi_session run
          = [data_annotation nine_samples A.DATA_OUT 0xBB%Z;
             parity_annotation nine_samples A.DATA_OUT false;
             mkPut 0 89 cls [label]]
          /\ cls = A.DATA_DEV /\ label = "BREAK".
Proof.
  do 5 (split; [reflexivity |]).
  destruct (checkParity_special_character "1" "10111011" A.DATA_OUT
              pdi_session nine_samples eq_refl eq_refl eq_refl
              (or_intror eq_refl) eq_refl (le_n 9))
    as (Hret & Hex & _ & Hfail).
  cbv zeta. split; [exact Hret |]. split; [exact Hex |].
  assert (Hodd : Z.Odd (popcount "10111011" + bit_val "1"))
    by (exists 3%Z; reflexivity).
  destruct (Hfail Hodd) as (cls & label & Hem & _ & Hcls & Hlabel & _).
  exists cls, label.
  split; [exact Hem |].
  split; [apply Hcls; reflexivity | apply Hlabel; reflexivity].
Defined.

(** ** The device identification code *)

Lemma slices_of_idcode (bits : string) :
  String.length bits = 32%nat ->
  slice bits (Some (-32)%Z) (Some (-28)%Z) = substring 0 4 bits
  /\ slice bits (Some (-28)%Z) (Some (-12)%Z) = substring 4 16 bits
  /\ slice bits (Some (-12)%Z) (Some (-1)%Z) = substring 20 11 bits.
Proof.
  intros H. unfold slice, clamp, len. rewrite H.
  repeat split; reflexivity.
Qed.

Lemma nonempty_of_length (s : string) (n : nat) :
  String.length s = S n -> s <> "".
Proof. destruct s; [discriminate | congruence]. Qed.

(** The tuple [decode_device_id_code] returns for 32 bits, field by field. *)
Lemma decode_device_id_code_fields (bits : string) :
  String.length bits = 32%nat -> bit_string bits = true ->
  let part := bin_value (substring 4 16 bits) in
  decode_device_id_code bits
  = Ok (fmt_hex (bin_value bits),
        dict_get Z.eqb jedec_id (bin_value (substring 20 11 bits)) "INVALID",
        bin_value (substring 0 4 bits),
        dict_get Z.eqb avr_idcode part (fmt_hex part)).
Proof.
  intros Hlen Hbits part.
  destruct (slices_of_idcode bits Hlen) as (Hv & Hp & Hm).
  unfold decode_device_id_code. rewrite Hv, Hp, Hm.
  rewrite (int_0b_bits (substring 0 4 bits)),
          (int_0b_bits (substring 4 16 bits)),
          (int_0b_bits (substring 20 11 bits)),
          (int_0b_bits bits);
    try (apply bit_string_substring; exact Hbits);
    try exact Hbits;
    try (eapply nonempty_of_length; apply length_substring; lia).
  - reflexivity.
  - eapply nonempty_of_length. exact Hlen.
Qed.

Lemma substring_of_prefix (s : string) :
  forall a n k, (a + n <= k)%nat ->
                substring a n (substring 0 k s) = substring a n s.
Proof.
  induction s as [| c s IH]; intros a n k H.
  - destruct k; reflexivity.
  - destruct k as [| k].
    + assert (a = 0%nat) by lia. assert (n = 0%nat) by lia. subst.
      reflexivity.
    + cbn [substring]. destruct a as [| a]; destruct n as [| n];
        cbn [substring]; try reflexivity.
      * f_equal. apply (IH 0%nat). lia.
      * apply IH. lia.
      * apply IH. lia.
Qed.

Lemma substring_agree (s t : string) (a n : nat) :
  substring 0 31 s = substring 0 31 t -> (a + n <= 31)%nat ->
  substring a n s = substring a n t.
Proof.
  intros H Hle.
  rewrite <- (substring_of_prefix s a n 31 Hle),
          <- (substring_of_prefix t a n 31 Hle), H.
  reflexivity.
Qed.

(** C3: for 32 bits, positions counted from the most significant (first)
    character of the string, [decode_device_id_code] reads the version from
    positions 0 to 3, the part id from positions 4 to 19 and the JEDEC
    manufacturer id from positions 20 to 30, each most significant bit first;
    position 31 belongs to no field.  The manufacturer id 0x1f is rendered as
    Atmel and any other as INVALID; a part id of the AVR table is rendered by
    its name and any other as a hexadecimal literal. *)
Theorem decode_device_id_code_layout (bits : string) :
  String.length bits = 32%nat -> bit_string bits = true ->
  let m := bin_value (substring 20 11 bits) in
  let p := bin_value (substring 4 16 bits) in
  let v := bin_value (substring 0 4 bits) in
  exists manufacturer part : string,
    decode_device_id_code bits
    = Ok (fmt_hex (bin_value bits), manufacturer, v, part)
    /\ (m = 0x1f%Z -> manufacturer = "Atmel")
    /\ (m <> 0x1f%Z -> manufacturer = "INVALID")
    /\ (p = 0x9642%Z -> part = "ATXMega64A3U")
    /\ (p = 0x9742%Z -> part = "ATXMega128A3U")
    /\ (p = 0x9744%Z -> part = "ATXMega192A3U")
    /\ (p = 0x9842%Z -> part = "ATXMega256A3U")
    /\ (p <> 0x9642%Z -> p <> 0x9742%Z -> p <> 0x9744%Z -> p <> 0x9842%Z ->
        part = "0x" ++ hex_digits (Z.to_N p))
    /\ (forall bits' : string,
          String.length bits' = 32%nat -> bit_string bits' = true ->
          substring 0 31 bits' = substring 0 31 bits ->
          exists id_hex : string,
            decode_device_id_code bits'
            = Ok (id_hex, manufacturer, v, part)).
Proof.
  intros Hlen Hbits m p v.
  exists (dict_get Z.eqb jedec_id m "INVALID"),
         (dict_get Z.eqb avr_idcode p (fmt_hex p)).
  split; [apply decode_device_id_code_fields; assumption |].
  cbn [dict_get jedec_id avr_idcode].
  repeat split.
  - intros ->. reflexivity.
  - intros H. apply Z.eqb_neq in H. rewrite Z.eqb_sym, H. reflexivity.
  - intros ->. reflexivity.
  - intros ->. reflexivity.
  - intros ->. reflexivity.
  - intros ->. reflexivity.
  - intros H1 H2 H3 H4.
    apply Z.eqb_neq in H1, H2, H3, H4.
    rewrite (Z.eqb_sym _ p), H1, (Z.eqb_sym _ p), H2,
            (Z.eqb_sym _ p), H3, (Z.eqb_sym _ p), H4.
    unfold fmt_hex, fmt_x.
    pose proof (bin_value_nonneg (substring 4 16 bits)) as Hp. fold p in Hp.
    destruct (p <? 0)%Z eqn:E; [apply Z.ltb_lt in E; lia | reflexivity].
  - intros bits' Hlen' Hbits' Hsame.
    exists (fmt_hex (bin_value bits')).
    rewrite (decode_device_id_code_fields bits' Hlen' Hbits').
    unfold m, p, v.
    rewrite (substring_agree bits' bits 20 11 Hsame),
            (substring_agree bits' bits 4 16 Hsame),
            (substring_agree bits' bits 0 4 Hsame) by lia.
    reflexivity.
Qed.

Lemma decode_device_id_code_layout_witness :
  String.length "00001001011001000010000000111111" = 32%nat
  /\ bit_string "00001001011001000010000000111111" = true
  /\ exists manufacturer part : string,
       decode_device_id_code "00001001011001000010000000111111"
       = Ok (fmt_hex (bin_value "00001001011001000010000000111111"),
             manufacturer, 0%Z, part)
       /\ manufacturer = "Atmel" /\ part = "ATXMega64A3U".
Proof.
  split; [reflexivity |]. split; [reflexivity |].
  destruct (decode_device_id_code_layout
              "00001001011001000010000000111111" eq_refl eq_refl)
    as (manufacturer & part & Hrun & Hm & _ & Hp & _).
  exists manufacturer, part.
  split; [exact Hrun |].
  split; [apply Hm; reflexivity | apply Hp; reflexivity].
Defined.

(** C4 (counterexample): the 32 bits written in the order reserved bit,
    manufacturer 0x1f, part 0x9642, version 0 do not decode to Atmel and
    ATXMega64A3U: the function reads the version from the first four
    characters, so the fields come out shifted. *)
Lemma decode_device_id_code_reserved_first :
  decode_device_id_code
    ("0" ++ "00000011111" ++ "1001011001000010" ++ "0000")
  = Ok ("0x1f96420", "INVALID", 0%Z, "0x1f96")
  /\ ~ (exists (id_hex : string) (version : Z),
          decode_device_id_code
            ("0" ++ "00000011111" ++ "1001011001000010" ++ "0000")
          = Ok (id_hex, "Atmel", version, "ATXMega64A3U")).
Proof.
  assert (H : decode_device_id_code
                ("0" ++ "00000011111" ++ "1001011001000010" ++ "0000")
              = Ok ("0x1f96420", "INVALID", 0%Z, "0x1f96"))
    by reflexivity.
  split; [exact H |].
  intros (id_hex & version & H'). rewrite H in H'. discriminate H'.
Qed.

Lemma string_of_length_4 (v : string) :
  String.length v = 4%nat ->
  exists a b c d, v = String a (String b (String c (String d ""))).
Proof.
  destruct v as [| a [| b [| c [| d [| e v]]]]]; try discriminate.
  intros _. exists a, b, c, d. reflexivity.
Qed.

(** C4 (amended): the 32 bits written in the order version (4 bits), part
    0x9642 (16 bits), manufacturer 0x1f (11 bits), reserved bit decode to
    manufacturer Atmel and part ATXMega64A3U, with the version read back. *)
Theorem decode_device_id_code_roundtrip (v : string) (r : ascii) :
  bit_string v = true -> String.length v = 4%nat -> is_bit r = true ->
  exists id_hex : string,
    decode_device_id_code
      (v ++ "1001011001000010" ++ "00000011111" ++ String r "")
    = Ok (id_hex, "Atmel", bin_value v, "ATXMega64A3U").
Proof.
  intros Hv Hlen Hr.
  destruct (string_of_length_4 v Hlen) as (a & b & c & d & ->).
  eexists.
  rewrite decode_device_id_code_fields.
  - cbn [append substring]. reflexivity.
  - reflexivity.
  - rewrite bit_string_app, Hv. cbn [andb append bit_string].
    rewrite Hr. reflexivity.
Qed.

Lemma decode_device_id_code_roundtrip_witness :
  bit_string "0101" = true /\ String.length "0101" = 4%nat
  /\ is_bit "1" = true
  /\ exists id_hex : string,
       decode_device_id_code "01011001011001000010000000111111"
       = Ok (id_hex, "Atmel", 5%Z, "ATXMega64A3U").
Proof.
  repeat (split; [reflexivity |]).
  exact (decode_device_id_code_roundtrip "0101" "1" eq_refl eq_refl eq_refl).
Defined.

(** ** Computations that only emit *)

Lemma only_emits_ret {T : Type} (t : T) : only_emits (ret t).
Proof. intros d. exists []. symmetry. apply with_out_nil. Qed.

Lemma only_emits_lift {T : Type} (r : Res T) : only_emits (lift r).
Proof. intros d. exists []. symmetry. apply with_out_nil. Qed.

Lemma only_emits_bind {T U : Type} (m : M T) (k : T -> M U) :
  only_emits m -> (forall t, only_emits (k t)) -> only_emits (bind m k).
Proof.
  intros Hm Hk d. unfold bind.
  destruct (Hm d) as [more1 H1].
  destruct (m d) as [[t | e] d1]; cbn [snd] in *; subst d1.
  - destruct (Hk t (with_out d more1)) as [more2 H2].
    exists (more1 ++ more2)%list. rewrite H2. apply with_out_app.
  - exists more1. reflexivity.
Qed.

Lemma only_emits_emit (p : Put) : only_emits (emit p).
Proof. intros d. exists [p]. reflexivity. Qed.

Lemma only_emits_putx (cls : Z) (text : list string) :
  only_emits (putx cls text).
Proof. intros d. unfold putx. apply only_emits_emit. Qed.

Lemma only_emits_samplenum (i : nat) : only_emits (samplenum i).
Proof.
  intros d. exists []. unfold samplenum.
  destruct (samplenums d); cbn [snd]; symmetry; apply with_out_nil.
Qed.

Lemma only_emits_putf (s e : nat) (cls : Z) (text : list string) :
  only_emits (putf s e cls text).
Proof.
  unfold putf.
  apply only_emits_bind; [apply only_emits_samplenum | intros a].
  apply only_emits_bind; [apply only_emits_samplenum | intros b].
  apply only_emits_emit.
Qed.

Lemma only_emits_pdi_putb (bit : nat) (dir value : Z) :
  only_emits (PDIDecoder.putb bit dir value).
Proof.
  unfold PDIDecoder.putb, decoder_putb, putb.
  repeat (apply only_emits_bind; [apply only_emits_lift | intros ?]).
  apply only_emits_putf.
Qed.

Lemma only_emits_put_special (data dir : Z) :
  only_emits (PDIDecoder.put_special data dir).
Proof.
  unfold PDIDecoder.put_special.
  destruct (dir =? A.DATA_IN)%Z; apply only_emits_putx.
Qed.

Lemma only_emits_checkParity (value : string) (dir : Z) :
  only_emits (PDIDecoder.checkParity value dir).
Proof.
  unfold PDIDecoder.checkParity.
  repeat (apply only_emits_bind; [apply only_emits_lift | intros ?]).
  destruct (negb (len value =? 9)%Z); [apply only_emits_ret |].
  apply only_emits_bind; [apply only_emits_putf | intros _].
  apply only_emits_bind; [apply only_emits_pdi_putb | intros _].
  apply only_emits_bind; [| intros _; apply only_emits_ret].
  match goal with
  | |- only_emits (if ?b then _ else _) => destruct b
  end; [apply only_emits_put_special | apply only_emits_ret].
Qed.

Lemma only_emits_handleInput (value : string) :
  only_emits (PDIDecoder.handleInput value).
Proof.
  unfold PDIDecoder.handleInput.
  apply only_emits_bind; [apply only_emits_checkParity | intros r].
  destruct (negb (snd r)); apply only_emits_ret.
Qed.

Lemma only_emits_handleOutput (value : string) :
  only_emits (PDIDecoder.handleOutput value).
Proof.
  unfold PDIDecoder.handleOutput.
  apply only_emits_bind; [apply only_emits_checkParity | intros r].
  destruct (negb (snd r)); apply only_emits_ret.
Qed.

(** A malformed frame leaves no trace of [handleOutput]. *)
Lemma handleOutput_malformed_silent (value : string) (dec : Decoder) :
  String.length value <> 9%nat ->
  snd (PDIDecoder.handleOutput value dec) = dec.
Proof.
  intros Hlen. unfold PDIDecoder.handleOutput, bind.
  pose proof (checkParity_malformed_silent value A.DATA_OUT dec Hlen) as H.
  destruct (PDIDecoder.checkParity value A.DATA_OUT dec) as [[r | e] d1];
    cbn [snd] in H; subst d1; [| reflexivity].
  destruct (negb (snd r)); reflexivity.
Qed.

(** ** The dispatcher, one state at a time *)

Lemma decode_bypass_step (d : Decoder) (s e : Z) (c : ShiftCmd)
      (bits : string) (sn : list (Z * Z)) :
  state d = "BYPASS" -> c = DR_TDI \/ c = DR_TDO ->
  decode s e (Shift c bits sn) d
  = match c with
    | DR_TDI =>
        (Ok tt, mkDecoder "IDLE" (Some (rev sn)) s e
                  (out d ++ [mkPut s e A.JTAG_ITEM ["BYPASS: " ++ bits]]))
    | _ => (Ok tt, mkDecoder "BYPASS" (Some (rev sn)) s e (out d))
    end.
Proof.
  intros Hst Hc. destruct d as [st sn0 s0 e0 o]. cbn [state] in Hst.
  subst st. destruct Hc; subst c; reflexivity.
Qed.

Lemma decode_idcode_step (d : Decoder) (s e : Z) (c : ShiftCmd)
      (bits : string) (sn : list (Z * Z)) :
  state d = "IDCODE" -> c = DR_TDI \/ c = DR_TDO ->
  decode s e (Shift c bits sn) d
  = match c with
    | DR_TDO =>
        (handle_reg_idcode "DR TDO" bits ;; set_state "IDLE")
          (mkDecoder "IDCODE" (Some (rev sn)) s e (out d))
    | _ => (Ok tt, mkDecoder "IDCODE" (Some (rev sn)) s e (out d))
    end.
Proof.
  intros Hst Hc. destruct d as [st sn0 s0 e0 o]. cbn [state] in Hst.
  subst st. destruct Hc; subst c; reflexivity.
Qed.

Lemma decode_pdicom_step (d : Decoder) (s e : Z) (c : ShiftCmd)
      (bits : string) (sn : list (Z * Z)) :
  state d = "PDICOM" -> c = DR_TDI \/ c = DR_TDO ->
  decode s e (Shift c bits sn) d
  = match c with
    | DR_TDI =>
        PDIDecoder.handleInput bits
          (mkDecoder "PDICOM" (Some (rev sn)) s e (out d))
    | _ =>
        PDIDecoder.handleOutput bits
          (mkDecoder "PDICOM" (Some (rev sn)) s e
             (out d ++ [mkPut s e A.JTAG_COMMAND ["PDICOM"]]))
    end.
Proof.
  intros Hst Hc. destruct d as [st sn0 s0 e0 o]. cbn [state] in Hst.
  subst st. destruct Hc; subst c; reflexivity.
Qed.

Lemma decode_unknown_step (d : Decoder) (s e : Z) (c : ShiftCmd)
      (bits : string) (sn : list (Z * Z)) :
  state d = "UNKNOWN" -> c = DR_TDI \/ c = DR_TDO ->
  decode s e (Shift c bits sn) d
  = (Ok tt, mkDecoder "UNKNOWN" (Some (rev sn)) s e (out d)).
Proof.
  intros Hst Hc. destruct d as [st sn0 s0 e0 o]. cbn [state] in Hst.
  subst st. destruct Hc; subst c; reflexivity.
Qed.

Lemma decode_ir_unselected (d : Decoder) (s e : Z) (val : string)
      (sn : list (Z * Z)) :
  dict_get String.eqb ir (slice val (Some 0%Z) (Some 4%Z)) ("UNKNOWN", 0%Z)
  = ("UNKNOWN", 0%Z) ->
  decode s e (Shift IR_TDI val sn) d
  = (Ok tt, mkDecoder "UNKNOWN" (Some (rev sn)) s e
              (out d ++ [mkPut s e A.JTAG_COMMAND ["IR: UNKNOWN"]])).
Proof.
  intros H. unfold decode.
  cbv [bind set_span set_samplenums ret cmd_of shift_name].
  cbn [String.eqb Ascii.eqb Bool.eqb fst snd state samplenums ss es out].
  rewrite H. reflexivity.
Qed.

Lemma handle_reg_idcode_ok (cmd bits : string) (d : Decoder)
      (sn : list (Z * Z)) :
  String.length bits = 32%nat -> bit_string bits = true ->
  samplenums d = Some sn -> (32 <= List.length sn)%nat ->
  exists anns,
    handle_reg_idcode cmd bits d = (Ok tt, with_out d anns).
Proof.
  intros Hlen Hbits Hsn Hn.
  unfold handle_reg_idcode, bind, lift.
  rewrite (decode_device_id_code_fields bits Hlen Hbits).
  unfold putb.
  rewrite (putf_ok d sn 0 0 _ _ Hsn) by lia.
  erewrite (putf_ok (with_out d _) sn 1 11 _ _ Hsn) by lia.
  rewrite with_out_app.
  erewrite (putf_ok (with_out d _) sn 12 27 _ _ Hsn) by lia.
  rewrite with_out_app.
  erewrite (putf_ok (with_out d _) sn 28 31 _ _ Hsn) by lia.
  rewrite with_out_app.
  unfold putx, emit. cbn [state samplenums ss es out with_out].
  eexists. unfold with_out. rewrite <- !app_assoc. reflexivity.
Qed.

Lemma slice_prefix4 (k rest : string) :
  String.length k = 4%nat ->
  slice (k ++ rest) (Some 0%Z) (Some 4%Z) = k.
Proof.
  intros H. destruct (string_of_length_4 k H) as (a & b & c & d & ->).
  unfold slice, clamp, len.
  cbn [append String.length Z.ltb Z.compare].
  rewrite !Z.min_l by lia.
  change (Z.to_nat (4 - 0)) with 4%nat. change (Z.to_nat 0) with 0%nat.
  cbn [Z.ltb Z.compare substring].
  destruct rest; reflexivity.
Qed.

Lemma ir_lookup_unknown (k : string) :
  k <> "0011" -> k <> "0111" -> k <> "1111" ->
  dict_get String.eqb ir k ("UNKNOWN", 0%Z) = ("UNKNOWN", 0%Z).
Proof.
  intros H1 H2 H3. cbn [dict_get ir].
  apply not_eq_sym in H1, H2, H3.
  apply String.eqb_neq in H1, H2, H3.
  rewrite H1, H2, H3. reflexivity.
Qed.

Lemma run_unknown (evs : list (Z * Z * Event)) :
  forallb is_dr_shift evs = true ->
  forall d, state d = "UNKNOWN" ->
            fst (run evs d) = Ok tt
            /\ state (snd (run evs d)) = "UNKNOWN"
            /\ out (snd (run evs d)) = out d.
Proof.
  induction evs as [| [[s e] ev] evs IH]; intros Hall d Hst.
  - repeat split. exact Hst.
  - cbn [forallb] in Hall. apply andb_true_iff in Hall.
    destruct Hall as [Hev Hall].
    cbn [run]. unfold bind.
    destruct ev as [name | c bits sn]; [discriminate Hev |].
    assert (Hc : c = DR_TDI \/ c = DR_TDO)
      by (destruct c; try discriminate Hev; auto).
    rewrite (decode_unknown_step d s e c bits sn Hst Hc).
    destruct (IH Hall (mkDecoder "UNKNOWN" (Some (rev sn)) s e (out d))
                 eq_refl) as (Hok & Hstate & Hout).
    repeat split; assumption.
Qed.

(** ** The dispatcher: claims *)

(** C6 (counterexample): a device-to-host shift (DR TDO) that arrives while
    BYPASS is selected does not reach the BYPASS handler: nothing is emitted
    and BYPASS stays selected. *)
Lemma decode_bypass_tdo_ignored :
  let r := decode 10 19 (Shift DR_TDO "1" [(10, 19)%Z]) (selected "BYPASS") in
  fst r = Ok tt /\ out (snd r) = [] /\ state (snd r) = "BYPASS"
  /\ ~ (out (snd r) = [mkPut 10 19 A.JTAG_ITEM ["BYPASS: 1"]]
        /\ state (snd r) = "IDLE").
Proof.
  cbv zeta. repeat split; try reflexivity.
  intros [H _]. discriminate H.
Qed.

(** C6 (amended): a host-to-device shift (DR TDI) that arrives while BYPASS
    is selected reaches the BYPASS handler, which emits exactly one item
    annotation, the text BYPASS followed by the bits as they came, whatever
    they are; IDLE is selected afterwards.  A device-to-host shift (DR TDO)
    that arrives while BYPASS is selected is ignored, whatever its bits: the
    call returns, nothing is emitted and BYPASS stays selected. *)
Theorem decode_bypass_tdi (d : Decoder) (s e : Z) (bits : string)
        (sn : list (Z * Z)) :
  state d = "BYPASS" ->
  let r := decode s e (Shift DR_TDI bits sn) d in
  let r' := decode s e (Shift DR_TDO bits sn) d in
  (fst r = Ok tt
   /\ emitted d r = [mkPut s e A.JTAG_ITEM ["BYPASS: " ++ bits]]
   /\ state (snd r) = "IDLE")
  /\ (fst r' = Ok tt
      /\ emitted d r' = []
      /\ state (snd r') = "BYPASS").
Proof.
  intros Hst r r'. unfold r, r'.
  rewrite (decode_bypass_step d s e DR_TDI bits sn Hst) by auto.
  rewrite (decode_bypass_step d s e DR_TDO bits sn Hst) by auto.
  unfold emitted. cbn [fst snd out state].
  repeat split.
  - rewrite skipn_app, skipn_all, Nat.sub_diag. reflexivity.
  - apply skipn_all.
Qed.

Lemma decode_bypass_tdi_witness :
  state (selected "BYPASS") = "BYPASS"
  /\ let r := decode 10 19 (Shift DR_TDI "01" [(10, 14); (15, 19)]%Z)
                     (selected "BYPASS") in
     let r' := decode 10 19 (Shift DR_TDO "01" [(10, 14); (15, 19)]%Z)
                      (selected "BYPASS") in
     (fst r = Ok tt
      /\ emitted (selected "BYPASS") r
         = [mkPut 10 19 A.JTAG_ITEM ["BYPASS: " ++ "01"]]
      /\ state (snd r) = "IDLE")
     /\ (fst r' = Ok tt
         /\ emitted (selected "BYPASS") r' = []
         /\ state (snd r') = "BYPASS").
Proof.
  split; [reflexivity |].
  exact (decode_bypass_tdi (selected "BYPASS") 10 19 "01"
                           [(10, 14); (15, 19)]%Z eq_refl).
Defined.

(** C7: an instruction-register shift whose first four bits are none of
    0011, 0111 and 1111 selects UNKNOWN, and the data-register shifts that
    follow, as many as come and in either direction, are ignored: the run
    raises nothing, emits nothing and leaves UNKNOWN selected. *)
Theorem decode_unknown_register (k rest : string) (sn : list (Z * Z))
        (s e : Z) (d : Decoder) (evs : list (Z * Z * Event)) :
  String.length k = 4%nat ->
  k <> "0011" -> k <> "0111" -> k <> "1111" ->
  forallb is_dr_shift evs = true ->
  let d1 := snd (decode s e (Shift IR_TDI (k ++ rest) sn) d) in
  let r := run evs d1 in
  fst (decode s e (Shift IR_TDI (k ++ rest) sn) d) = Ok tt
  /\ state d1 = "UNKNOWN"
  /\ fst r = Ok tt
  /\ state (snd r) = "UNKNOWN"
  /\ out (snd r) = out d1.
Proof.
  intros Hk H1 H2 H3 Hall d1 r. unfold r, d1.
  rewrite (decode_ir_unselected d s e (k ++ rest) sn)
    by (rewrite (slice_prefix4 k rest Hk);
        apply ir_lookup_unknown; assumption).
  cbn [fst snd].
  split; [reflexivity |]. split; [reflexivity |].
  apply (run_unknown evs Hall). reflexivity.
Qed.

Lemma decode_unknown_register_witness :
  String.length "0101" = 4%nat
  /\ "0101" <> "0011" /\ "0101" <> "0111" /\ "0101" <> "1111"
  /\ let evs := [ (10, 19, Shift DR_TDI "1" [(10, 19)]);
                  (20, 59, Shift DR_TDO "0110" [(20, 29); (30, 39);
                                                (40, 49); (50, 59)]) ]%Z in
     forallb is_dr_shift evs = true
     /\ let d1 := snd (decode 0 9 (Shift IR_TDI ("0101" ++ "") []) init) in
        state d1 = "UNKNOWN"
        /\ fst (run evs d1) = Ok tt
        /\ state (snd (run evs d1)) = "UNKNOWN"
        /\ out (snd (run evs d1)) = out d1.
Proof.
  split; [reflexivity |].
  do 3 (split; [discriminate |]).
  cbv zeta. split; [reflexivity |].
  apply (decode_unknown_register "0101" "" [] 0 9 init
           [ (10, 19, Shift DR_TDI "1" [(10, 19)]);
             (20, 59, Shift DR_TDO "0110" [(20, 29); (30, 39);
                                           (40, 49); (50, 59)]) ]%Z);
    try reflexivity; discriminate.
Defined.

(** C8 (counterexample): a data-register shift does not always bring BYPASS
    or IDCODE back to IDLE.  A device-to-host shift under BYPASS is ignored
    and leaves BYPASS selected; a device-to-host shift of a single bit under
    IDCODE raises [ValueError] in [decode_device_id_code] before the state
    is written, and leaves IDCODE selected. *)
Lemma decode_dr_not_always_idle :
  let bypass := decode 10 19 (Shift DR_TDO "0" [(10, 19)%Z])
                       (selected "BYPASS") in
  let idcode := decode 10 19 (Shift DR_TDO "0" [(10, 19)%Z])
                       (selected "IDCODE") in
  (fst bypass = Ok tt /\ state (snd bypass) = "BYPASS")
  /\ (fst idcode = Raise ValueError /\ state (snd idcode) = "IDCODE")
  /\ ~ (state (snd bypass) = "IDLE")
  /\ ~ (state (snd idcode) = "IDLE").
Proof.
  cbv zeta. repeat split; try reflexivity; discriminate.
Qed.

(** C8 (amended): a host-to-device data-register shift under BYPASS, and a
    device-to-host data-register shift of 32 bits with their sample ranges
    under IDCODE, complete and select IDLE; a device-to-host shift under
    BYPASS leaves BYPASS selected; a data-register shift under PDICOM, in
    either direction and whatever its outcome, leaves PDICOM selected. *)
Theorem decode_state_after_dr (d : Decoder) (s e : Z) (bits : string)
        (sn : list (Z * Z)) :
  (state d = "BYPASS" ->
   fst (decode s e (Shift DR_TDI bits sn) d) = Ok tt
   /\ state (snd (decode s e (Shift DR_TDI bits sn) d)) = "IDLE"
   /\ state (snd (decode s e (Shift DR_TDO bits sn) d)) = "BYPASS")
  /\ (state d = "IDCODE" ->
      String.length bits = 32%nat -> bit_string bits = true ->
      (32 <= List.length sn)%nat ->
      fst (decode s e (Shift DR_TDO bits sn) d) = Ok tt
      /\ state (snd (decode s e (Shift DR_TDO bits sn) d)) = "IDLE")
  /\ (state d = "PDICOM" ->
      forall c, c = DR_TDI \/ c = DR_TDO ->
                state (snd (decode s e (Shift c bits sn) d)) = "PDICOM").
Proof.
  split; [| split].
  - intros Hst.
    rewrite (decode_bypass_step d s e DR_TDI bits sn Hst) by auto.
    rewrite (decode_bypass_step d s e DR_TDO bits sn Hst) by auto.
    repeat split.
  - intros Hst Hlen Hbits Hsn.
    rewrite (decode_idcode_step d s e DR_TDO bits sn Hst) by auto.
    destruct (handle_reg_idcode_ok "DR TDO" bits
                (mkDecoder "IDCODE" (Some (rev sn)) s e (out d)) (rev sn)
                Hlen Hbits eq_refl) as [anns Hrun];
      [rewrite length_rev; exact Hsn |].
    unfold bind. rewrite Hrun. split; reflexivity.
  - intros Hst c Hc.
    rewrite (decode_pdicom_step d s e c bits sn Hst Hc).
    destruct Hc; subst c.
    + destruct (only_emits_handleInput bits
                  (mkDecoder "PDICOM" (Some (rev sn)) s e (out d)))
        as [more ->].
      reflexivity.
    + destruct (only_emits_handleOutput bits
                  (mkDecoder "PDICOM" (Some (rev sn)) s e
                     (out d ++ [mkPut s e A.JTAG_COMMAND ["PDICOM"]])))
        as [more ->].
      reflexivity.
Qed.

Lemma decode_state_after_dr_witness :
  let bits := "00001001011001000010000000111111" in
  (state (selected "BYPASS") = "BYPASS"
   /\ state (snd (decode 0 319 (Shift DR_TDI bits idcode_samples)
                         (selected "BYPASS"))) = "IDLE")
  /\ (state (selected "IDCODE") = "IDCODE"
      /\ String.length bits = 32%nat /\ bit_string bits = true
      /\ (32 <= List.length idcode_samples)%nat
      /\ fst (decode 0 319 (Shift DR_TDO bits idcode_samples)
                     (selected "IDCODE")) = Ok tt
      /\ state (snd (decode 0 319 (Shift DR_TDO bits idcode_samples)
                            (selected "IDCODE"))) = "IDLE")
  /\ (state (selected "PDICOM") = "PDICOM"
      /\ state (snd (decode 0 319 (Shift DR_TDO bits idcode_samples)
                            (selected "PDICOM"))) = "PDICOM").
Proof.
  cbv zeta.
  split; [| split].
  - split; [reflexivity |].
    apply (decode_state_after_dr (selected "BYPASS") 0 319
             "00001001011001000010000000111111" idcode_samples).
    reflexivity.
  - do 4 (split; [reflexivity |]).
    apply (decode_state_after_dr (selected "IDCODE") 0 319
             "00001001011001000010000000111111" idcode_samples);
      reflexivity.
  - split; [reflexivity |].
    apply (decode_state_after_dr (selected "PDICOM") 0 319
             "00001001011001000010000000111111" idcode_samples);
      [reflexivity | right; reflexivity].
Defined.

(** C9: a host-to-device data-register shift (DR TDI) that arrives while
    IDCODE is selected is ignored: the call returns, nothing is emitted, and
    IDCODE stays selected; only the span and the sample ranges of the event
    are recorded, as for every event. *)
Theorem decode_idcode_tdi_ignored (d : Decoder) (s e : Z) (bits : string)
        (sn : list (Z * Z)) :
  state d = "IDCODE" ->
  decode s e (Shift DR_TDI bits sn) d
  = (Ok tt, mkDecoder "IDCODE" (Some (rev sn)) s e (out d))
  /\ emitted d (decode s e (Shift DR_TDI bits sn) d) = []
  /\ state (snd (decode s e (Shift DR_TDI bits sn) d)) = state d.
Proof.
  intros Hst.
  rewrite (decode_idcode_step d s e DR_TDI bits sn Hst) by auto.
  repeat split.
  - unfold emitted. cbn [snd out]. apply skipn_all.
  - cbn [snd state]. symmetry. exact Hst.
Qed.

Lemma decode_idcode_tdi_ignored_witness :
  state (selected "IDCODE") = "IDCODE"
  /\ decode 10 19 (Shift DR_TDI "1" [(10, 19)%Z]) (selected "IDCODE")
     = (Ok tt, mkDecoder "IDCODE" (Some (rev [(10, 19)%Z])) 10 19
                 (out (selected "IDCODE"))).
Proof.
  split; [reflexivity |].
  apply (decode_idcode_tdi_ignored (selected "IDCODE") 10 19 "1"
           [(10, 19)%Z]).
  reflexivity.
Defined.

(** C10: a device-to-host data-register shift (DR TDO) that arrives while
    PDICOM is selected emits the PDICOM command annotation first, before the
    frame is looked at; when the frame is not nine characters long this is
    the only annotation of the event, whether the frame decoder then returns
    or raises. *)
Theorem decode_pdicom_tdo_command_first (d : Decoder) (s e : Z)
        (bits : string) (sn : list (Z * Z)) :
  state d = "PDICOM" ->
  exists more : list Put,
    emitted d (decode s e (Shift DR_TDO bits sn) d)
    = mkPut s e A.JTAG_COMMAND ["PDICOM"] :: more
    /\ (String.length bits <> 9%nat -> more = []).
Proof.
  intros Hst.
  rewrite (decode_pdicom_step d s e DR_TDO bits sn Hst) by auto.
  set (d1 := mkDecoder "PDICOM" (Some (rev sn)) s e
               (out d ++ [mkPut s e A.JTAG_COMMAND ["PDICOM"]])).
  destruct (Nat.eq_dec (String.length bits) 9) as [Hlen | Hlen].
  - destruct (only_emits_handleOutput bits d1) as [more Hmore].
    exists more. split; [| intros H; contradiction].
    unfold emitted. rewrite Hmore. unfold d1. cbn [with_out out].
    rewrite <- app_assoc, skipn_app, skipn_all, Nat.sub_diag.
    reflexivity.
  - exists []. split; [| reflexivity].
    unfold emitted.
    rewrite (handleOutput_malformed_silent bits d1 Hlen).
    unfold d1. cbn [out].
    rewrite skipn_app, skipn_all, Nat.sub_diag. reflexivity.
Qed.

Lemma decode_pdicom_tdo_command_first_witness :
  state (selected "PDICOM") = "PDICOM"
  /\ exists more : list Put,
       emitted (selected "PDICOM")
               (decode 10 19 (Shift DR_TDO "1" [(10, 19)%Z])
                       (selected "PDICOM"))
       = mkPut 10 19 A.JTAG_COMMAND ["PDICOM"] :: more
       /\ (String.length "1" <> 9%nat -> more = []).
Proof.
  split; [reflexivity |].
  apply (decode_pdicom_tdo_command_first (selected "PDICOM") 10 19 "1"
           [(10, 19)%Z]).
  reflexivity.
Defined.

(** ** The register names are closed under [decode] *)

Lemma only_emits_handle_reg_idcode (cmd bits : string) :
  only_emits (handle_reg_idcode cmd bits).
Proof.
  unfold handle_reg_idcode.
  apply only_emits_bind; [apply only_emits_lift | intros [[[id m] v] p]].
  unfold putb.
  repeat (apply only_emits_bind; [apply only_emits_putf | intros _]).
  apply only_emits_bind; [apply only_emits_putx | intros _].
  apply only_emits_putx.
Qed.

Lemma decode_ir_step (d : Decoder) (s e : Z) (val : string)
      (sn : list (Z * Z)) :
  let st := fst (dict_get String.eqb ir (slice val (Some 0%Z) (Some 4%Z))
                          ("UNKNOWN", 0%Z)) in
  decode s e (Shift IR_TDI val sn) d
  = (Ok tt, mkDecoder st (Some (rev sn)) s e
              (out d ++ [mkPut s e A.JTAG_COMMAND ["IR: " ++ st]]))
  /\ In st state_names.
Proof.
  set (r := dict_get String.eqb ir (slice val (Some 0%Z) (Some 4%Z))
                     ("UNKNOWN", 0%Z)).
  assert (Hr : In (fst r) ["IDCODE"; "PDICOM"; "BYPASS"; "UNKNOWN"]).
  { unfold r. cbn [dict_get ir].
    repeat match goal with
           | |- context [if String.eqb ?a ?b then _ else _] =>
               destruct (String.eqb a b)
           end; cbn; auto. }
  change (decode s e (Shift IR_TDI val sn) d)
    with ((set_state (fst r) ;; putx 2 ["IR: " ++ fst r] ;;
           st <- get_state ;;
           if st =? "BYPASS" then ret tt
           else if str_in st "IDCODE" then ret tt
           else if st =? "PDICOM" then ret tt
           else ret tt)
            (mkDecoder (state d) (Some (rev sn)) s e (out d))).
  clearbody r. destruct r as [nm w]. cbn [fst] in *.
  destruct Hr as [<- | [<- | [<- | [<- | []]]]];
    (split; [reflexivity | cbn; auto 6]).
Qed.

Lemma decode_other_step (d : Decoder) (s e : Z) (ev : Event) :
  In (state d) state_names ->
  match ev with
  | NewState _ | Shift IR_TDO _ _ => True
  | Shift IR_TDI _ _ => False
  | Shift _ _ _ => state d = "IDLE"
  end ->
  decode s e ev d
  = (Ok tt,
     mkDecoder (state d)
               (match ev with
                | NewState _ => samplenums d
                | Shift _ _ sn => Some (rev sn)
                end) s e (out d)).
Proof.
  intros Hin Hev. destruct d as [st sn0 s0 e0 o]. cbn [state] in *.
  destruct ev as [name | [] bits sn]; try contradiction;
    try (subst st; reflexivity);
    destruct Hin as [<- | [<- | [<- | [<- | [<- | []]]]]]; reflexivity.
Qed.

(** Whatever the event and its outcome, [decode] leaves one of the five
    register names selected. *)
Lemma decode_state_names (d : Decoder) (s e : Z) (ev : Event) :
  In (state d) state_names ->
  In (state (snd (decode s e ev d))) state_names.
Proof.
  intros Hin.
  destruct ev as [name | c bits sn].
  - rewrite (decode_other_step d s e (NewState name) Hin I). exact Hin.
  - destruct c.
    + destruct (decode_ir_step d s e bits sn) as [-> H]. exact H.
    + rewrite (decode_other_step d s e (Shift IR_TDO bits sn) Hin I).
      exact Hin.
    + cbn in Hin.
      destruct Hin as [Hst | [Hst | [Hst | [Hst | [Hst | []]]]]];
        symmetry in Hst.
      * rewrite (decode_other_step d s e (Shift DR_TDI bits sn)); auto.
        -- cbn [snd state]. rewrite Hst. cbn; auto.
        -- rewrite Hst. cbn; auto.
      * rewrite (decode_bypass_step d s e DR_TDI bits sn Hst) by auto.
        cbn; auto.
      * rewrite (decode_idcode_step d s e DR_TDI bits sn Hst) by auto.
        cbn; auto.
      * rewrite (decode_pdicom_step d s e DR_TDI bits sn Hst) by auto.
        destruct (only_emits_handleInput bits
                    (mkDecoder "PDICOM" (Some (rev sn)) s e (out d)))
          as [more ->].
        cbn; auto.
      * rewrite (decode_unknown_step d s e DR_TDI bits sn Hst) by auto.
        cbn; auto 6.
    + cbn in Hin.
      destruct Hin as [Hst | [Hst | [Hst | [Hst | [Hst | []]]]]];
        symmetry in Hst.
      * rewrite (decode_other_step d s e (Shift DR_TDO bits sn)); auto.
        -- cbn [snd state]. rewrite Hst. cbn; auto.
        -- rewrite Hst. cbn; auto.
      * rewrite (decode_bypass_step d s e DR_TDO bits sn Hst) by auto.
        cbn; auto.
      * rewrite (decode_idcode_step d s e DR_TDO bits sn Hst) by auto.
        unfold bind.
        destruct (only_emits_handle_reg_idcode "DR TDO" bits
                    (mkDecoder "IDCODE" (Some (rev sn)) s e (out d)))
          as [more Hmore].
        destruct (handle_reg_idcode "DR TDO" bits _) as [[[] | ex] d1];
          cbn [snd] in Hmore; subst d1; cbn; auto.
      * rewrite (decode_pdicom_step d s e DR_TDO bits sn Hst) by auto.
        destruct (only_emits_handleOutput bits
                    (mkDecoder "PDICOM" (Some (rev sn)) s e
                       (out d ++ [mkPut s e A.JTAG_COMMAND ["PDICOM"]])))
          as [more ->].
        cbn; auto.
      * rewrite (decode_unknown_step d s e DR_TDO bits sn Hst) by auto.
        cbn; auto 6.
Qed.

(** ** Worked scenarios *)

(** PDICOM selected, then the frame [100000000] sent to the device: parity
    bit set over a zero byte, so the parity check fails and 0x00 is no
    special character. *)
Example scenario_parity_error :
  map (fun p => (put_class p, put_text p))
      (out (snd (run [ (0, 39, Shift IR_TDI "0111"
                                     [(0, 9); (10, 19); (20, 29); (30, 39)]);
                       (40, 129, Shift DR_TDI "100000000" nine_samples) ]%Z
                     init)))
  = [ (A.JTAG_COMMAND, ["IR: PDICOM"]);
      (A.DATA_IN, ["Data: 0x00"; "D: 0x00"; "0x00"]);
      (A.PARITY_IN_ERR, ["Parity error"; "Par ERR"; "PE"]);
      (A.DATA_PROG, ["INVALID"]) ].
Proof. reflexivity. Qed.

(** The frame [011111111] read from the device: eight set bits and a clear
    parity bit pass the check. *)
Example scenario_parity_ok :
  map (fun p => (put_class p, put_text p))
      (out (snd (decode 40 129 (Shift DR_TDO "011111111" nine_samples)
                        (selected "PDICOM"))))
  = [ (A.JTAG_COMMAND, ["PDICOM"]);
      (A.DATA_OUT, ["Data: 0xff"; "D: 0xff"; "0xff"]);
      (A.PARITY_OUT_OK, ["Parity OK"; "Par OK"; "P"]) ].
Proof. reflexivity. Qed.

(** A BREAK character read from the device: 0xBB under a set parity bit. *)
Example scenario_break :
  map (fun p => (put_class p, put_text p))
      (emitted pdi_session
         (PDIDecoder.checkParity "110111011" A.DATA_OUT pdi_session))
  = [ (A.DATA_OUT, ["Data: 0xbb"; "D: 0xbb"; "0xbb"]);
      (A.PARITY_OUT_ERR, ["Parity error"; "Par ERR"; "PE"]);
      (A.DATA_DEV, ["BREAK"]) ].
Proof. reflexivity. Qed.

(** IDCODE selected, then the identification code of an ATxmega64A3U read
    from the device; IDLE is selected afterwards. *)
Example scenario_idcode :
  let r := run [ (0, 39, Shift IR_TDI "0011"
                               [(0, 9); (10, 19); (20, 29); (30, 39)]);
                 (40, 359, Shift DR_TDO "00001001011001000010000000111111"
                                 idcode_samples) ]%Z init in
  fst r = Ok tt
  /\ state (snd r) = "IDLE"
  /\ map put_text (out (snd r))
     = [ ["IR: IDCODE"];
         ["Reserved"; "Res"; "R"];
         ["Manufacturer: Atmel"; "Manuf"; "M"];
         ["Part: ATXMega64A3U"; "Part"; "P"];
         ["Version: 0"; "Version"; "V"];
         ["IDCODE: 0x964203f"];
         ["IDCODE: 0x964203f (Atmel: ATXMega64A3U@r0)"] ].
Proof. cbv zeta. repeat split; reflexivity. Qed.

(** Frames of eight and of ten bits are dropped without a trace. *)
Example scenario_wrong_length (dec : Decoder) :
  PDIDecoder.checkParity "10101010" A.DATA_IN dec = (Ok (0%Z, false), dec)
  /\ PDIDecoder.checkParity "1010101011" A.DATA_OUT dec
     = (Ok (0%Z, false), dec).
Proof.
  split; apply checkParity_wrong_length; try reflexivity; discriminate.
Qed.

(** * Further properties of the decoder *)

(** ** Tame computations *)

Lemma tame_ret {T : Type} (t : T) : tame (ret t).
Proof.
  intros d l _. exists []. repeat split. symmetry. apply with_out_nil.
Qed.

Lemma tame_lift {T : Type} (r : Res T) : benign r -> tame (lift r).
Proof.
  intros H d l _. exists []. repeat split; [| exact H].
  symmetry. apply with_out_nil.
Qed.

Lemma tame_bind {T U : Type} (m : M T) (k : T -> M U) :
  tame m -> (forall t, tame (k t)) -> tame (bind m k).
Proof.
  intros Hm Hk d l Hs. unfold bind.
  destruct (Hm d l Hs) as (more1 & H1 & F1 & E1).
  destruct (m d) as [[t | ex] d1]; cbn [fst snd] in *; subst d1.
  - destruct (Hk t (with_out d more1) l Hs) as (more2 & H2 & F2 & E2).
    exists (more1 ++ more2)%list.
    rewrite H2, with_out_app, forallb_app, F1, F2. auto.
  - exists more1. auto.
Qed.

Lemma tame_emit (p : Put) : declared p = true -> tame (emit p).
Proof.
  intros H d l _. exists [p]. cbn [forallb]. rewrite H. repeat split.
Qed.

Lemma tame_putx (cls : Z) (text : list string) :
  (forall a b, declared (mkPut a b cls text) = true) ->
  tame (putx cls text).
Proof. intros H d l Hs. unfold putx. apply (tame_emit _ (H _ _) d l Hs). Qed.

Lemma tame_samplenum (i : nat) : tame (samplenum i).
Proof.
  intros d l Hs. exists []. unfold samplenum, list_item. rewrite Hs.
  cbn [fst snd forallb].
  repeat split; [symmetry; apply with_out_nil |].
  destruct (nth_error l i); cbn; auto.
Qed.

Lemma tame_putf (s e : nat) (cls : Z) (text : list string) :
  (forall a b, declared (mkPut a b cls text) = true) ->
  tame (putf s e cls text).
Proof.
  intros H. unfold putf.
  apply tame_bind; [apply tame_samplenum | intros a].
  apply tame_bind; [apply tame_samplenum | intros b].
  apply tame_emit, H.
Qed.

Lemma benign_int (s : string) (base : N) : benign (int s base).
Proof.
  destruct (int s base) as [z | ex] eqn:E; cbn; [exact I |].
  left. exact (int_raises_ValueError s base ex E).
Qed.

Lemma benign_str_item_int (value : string) :
  benign (res_bind (str_item value 0) (fun c => int c 10)).
Proof.
  unfold str_item.
  destruct ((0 <=? _) && _)%Z; [| cbn; auto].
  destruct (String.get _ value); [| cbn; auto].
  cbn [res_bind]. apply benign_int.
Qed.

Lemma benign_sum_bits (s : string) : benign (PDIDecoder.sum_bits s).
Proof.
  induction s as [| c s IH]; cbn [PDIDecoder.sum_bits]; [exact I |].
  pose proof (benign_int (String c "") 10) as Hc.
  destruct (int (String c "") 10); cbn [res_bind]; [| exact Hc].
  destruct (PDIDecoder.sum_bits s); cbn [res_bind]; [exact I | exact IH].
Qed.

Lemma benign_decode_device_id_code (bits : string) :
  benign (decode_device_id_code bits).
Proof.
  unfold decode_device_id_code.
  repeat match goal with
         | |- benign (res_bind (int ?s ?b) _) =>
             pose proof (benign_int s b);
             destruct (int s b); cbn [res_bind]; [| assumption]
         end.
  exact I.
Qed.

Lemma tame_pdi_putb (bit : nat) (dir value : Z) :
  dir = A.DATA_IN \/ dir = A.DATA_OUT ->
  value = A.PARITY_OK \/ value = A.PARITY_ERR ->
  tame (PDIDecoder.putb bit dir value).
Proof.
  intros [-> | ->] [-> | ->].
  - apply (tame_putf bit bit A.PARITY_IN_OK ["Parity OK"; "Par OK"; "P"]).
    reflexivity.
  - apply (tame_putf bit bit A.PARITY_IN_ERR
                     ["Parity error"; "Par ERR"; "PE"]).
    reflexivity.
  - apply (tame_putf bit bit A.PARITY_OUT_OK ["Parity OK"; "Par OK"; "P"]).
    reflexivity.
  - apply (tame_putf bit bit A.PARITY_OUT_ERR
                     ["Parity error"; "Par ERR"; "PE"]).
    reflexivity.
Qed.

Lemma tame_put_special (data dir : Z) :
  tame (PDIDecoder.put_special data dir).
Proof.
  unfold PDIDecoder.put_special.
  destruct (dir =? A.DATA_IN)%Z; apply tame_putx; intros; reflexivity.
Qed.

Lemma tame_checkParity (value : string) (dir : Z) :
  dir = A.DATA_IN \/ dir = A.DATA_OUT ->
  tame (PDIDecoder.checkParity value dir).
Proof.
  intros Hdir. unfold PDIDecoder.checkParity.
  apply tame_bind;
    [apply tame_lift, benign_str_item_int | intros parity].
  apply tame_bind; [apply tame_lift, benign_int | intros data].
  apply tame_bind; [apply tame_lift, benign_sum_bits | intros ones].
  destruct (negb (len value =? 9)%Z); [apply tame_ret |].
  apply tame_bind.
  { apply tame_putf. intros a b. destruct Hdir; subst dir; reflexivity. }
  intros _. apply tame_bind.
  { apply tame_pdi_putb; [exact Hdir |].
    destruct (Z.land (ones + parity) 1 =? 0)%Z; auto. }
  intros _. apply tame_bind; [| intros _; apply tame_ret].
  destruct (negb _); [apply tame_put_special | apply tame_ret].
Qed.

Lemma tame_handleInput (value : string) :
  tame (PDIDecoder.handleInput value).
Proof.
  unfold PDIDecoder.handleInput.
  apply tame_bind; [apply tame_checkParity; auto | intros r].
  destruct (negb (snd r)); apply tame_ret.
Qed.

Lemma tame_handleOutput (value : string) :
  tame (PDIDecoder.handleOutput value).
Proof.
  unfold PDIDecoder.handleOutput.
  apply tame_bind; [apply tame_checkParity; auto | intros r].
  destruct (negb (snd r)); apply tame_ret.
Qed.

Lemma tame_handle_reg_bypass (cmd bits : string) :
  tame (handle_reg_bypass cmd bits).
Proof. apply tame_putx. intros; reflexivity. Qed.

Lemma tame_handle_reg_idcode (cmd bits : string) :
  tame (handle_reg_idcode cmd bits).
Proof.
  unfold handle_reg_idcode.
  apply tame_bind;
    [apply tame_lift, benign_decode_device_id_code
    | intros [[[id m] v] p]].
  unfold putb.
  repeat (apply tame_bind;
          [apply tame_putf; intros; reflexivity | intros _]).
  apply tame_bind; [apply tame_putx; intros; reflexivity | intros _].
  apply tame_putx; intros; reflexivity.
Qed.

(** ** One step of the dispatcher, in every state *)

Lemma decode_invariant (d : Decoder) (s e : Z) (ev : Event) :
  In (state d) state_names ->
  exists more,
    out (snd (decode s e ev d)) = (out d ++ more)%list
    /\ forallb declared more = true
    /\ benign (fst (decode s e ev d))
    /\ In (state (snd (decode s e ev d))) state_names
    /\ (forall ex, fst (decode s e ev d) = Raise ex ->
                   state (snd (decode s e ev d)) = state d
                   /\ is_dr_shift (s, e, ev) = true
                   /\ (state d = "IDCODE" \/ state d = "PDICOM")).
Proof.
  intros Hin.
  assert (Hquiet : forall sn',
             decode s e ev d
             = (Ok tt, mkDecoder (state d) sn' s e (out d)) ->
             exists more,
               out (snd (decode s e ev d)) = (out d ++ more)%list
               /\ forallb declared more = true
               /\ benign (fst (decode s e ev d))
               /\ In (state (snd (decode s e ev d))) state_names
               /\ (forall ex, fst (decode s e ev d) = Raise ex ->
                              state (snd (decode s e ev d)) = state d
                              /\ is_dr_shift (s, e, ev) = true
                              /\ (state d = "IDCODE"
                                  \/ state d = "PDICOM"))).
  { intros sn' ->. exists []. cbn [fst snd out state benign forallb].
    rewrite app_nil_r. repeat split; try exact Hin; discriminate. }
  destruct ev as [name | c bits sn].
  - apply (Hquiet (samplenums d)).
    apply (decode_other_step d s e (NewState name) Hin I).
  - destruct c.
    + destruct (decode_ir_step d s e bits sn) as [Hrun Hst].
      rewrite Hrun. eexists. cbn [fst snd out state benign].
      repeat split; try reflexivity; try exact Hst; discriminate.
    + apply (Hquiet (Some (rev sn))).
      apply (decode_other_step d s e (Shift IR_TDO bits sn) Hin I).
    + cbn in Hin.
      destruct Hin as [Hst | [Hst | [Hst | [Hst | [Hst | []]]]]];
        symmetry in Hst.
      * apply (Hquiet (Some (rev sn))).
        apply (decode_other_step d s e (Shift DR_TDI bits sn));
          [rewrite Hst; cbn; auto | exact Hst].
      * rewrite (decode_bypass_step d s e DR_TDI bits sn Hst) by auto.
        eexists. cbn [fst snd out state benign].
        repeat split; try reflexivity; try (cbn; tauto); discriminate.
      * apply (Hquiet (Some (rev sn))).
        rewrite (decode_idcode_step d s e DR_TDI bits sn Hst) by auto.
        rewrite Hst. reflexivity.
      * rewrite (decode_pdicom_step d s e DR_TDI bits sn Hst) by auto.
        destruct (tame_handleInput bits
                    (mkDecoder "PDICOM" (Some (rev sn)) s e (out d))
                    (rev sn) eq_refl) as (more & Hmore & Hdecl & Hben).
        exists more. rewrite Hmore. cbn [out state with_out].
        repeat split; auto; try discriminate; cbn; tauto.
      * apply (Hquiet (Some (rev sn))).
        rewrite (decode_unknown_step d s e DR_TDI bits sn Hst) by auto.
        rewrite Hst. reflexivity.
    + cbn in Hin.
      destruct Hin as [Hst | [Hst | [Hst | [Hst | [Hst | []]]]]];
        symmetry in Hst.
      * apply (Hquiet (Some (rev sn))).
        apply (decode_other_step d s e (Shift DR_TDO bits sn));
          [rewrite Hst; cbn; auto | exact Hst].
      * apply (Hquiet (Some (rev sn))).
        rewrite (decode_bypass_step d s e DR_TDO bits sn Hst) by auto.
        rewrite Hst. reflexivity.
      * rewrite (decode_idcode_step d s e DR_TDO bits sn Hst) by auto.
        unfold bind.
        destruct (tame_handle_reg_idcode "DR TDO" bits
                    (mkDecoder "IDCODE" (Some (rev sn)) s e (out d))
                    (rev sn) eq_refl) as (more & Hmore & Hdecl & Hben).
        exists more.
        destruct (handle_reg_idcode "DR TDO" bits _) as [[[] | ex] d1];
          cbn [fst snd] in *; subst d1; cbn [out state with_out set_state
                                             fst snd benign];
          repeat split; auto; try discriminate; cbn; tauto.
      * rewrite (decode_pdicom_step d s e DR_TDO bits sn Hst) by auto.
        destruct (tame_handleOutput bits
                    (mkDecoder "PDICOM" (Some (rev sn)) s e
                       (out d ++ [mkPut s e A.JTAG_COMMAND ["PDICOM"]]))
                    (rev sn) eq_refl) as (more & Hmore & Hdecl & Hben).
        exists (mkPut s e A.JTAG_COMMAND ["PDICOM"] :: more).
        rewrite Hmore. cbn [out state with_out].
        rewrite <- app_assoc.
        repeat split; auto; try discriminate; cbn; tauto.
      * apply (Hquiet (Some (rev sn))).
        rewrite (decode_unknown_step d s e DR_TDO bits sn Hst) by auto.
        rewrite Hst. reflexivity.
Qed.

(** ** Whole runs *)

Lemma run_invariant (evs : list (Z * Z * Event)) :
  forall d, In (state d) state_names ->
            exists more,
              out (snd (run evs d)) = (out d ++ more)%list
              /\ forallb declared more = true
              /\ benign (fst (run evs d))
              /\ In (state (snd (run evs d))) state_names.
Proof.
  induction evs as [| [[s e] ev] evs IH]; intros d Hin.
  - exists []. cbn [run ret fst snd]. rewrite app_nil_r.
    repeat split. exact Hin.
  - cbn [run]. unfold bind.
    destruct (decode_invariant d s e ev Hin)
      as (more1 & Hout & Hdecl & Hben & Hst & _).
    destruct (decode s e ev d) as [[[] | ex] d1]; cbn [fst snd] in *.
    + destruct (IH d1 Hst) as (more2 & Hout2 & Hdecl2 & Hben2 & Hst2).
      exists (more1 ++ more2)%list.
      rewrite Hout2, Hout, <- app_assoc, forallb_app, Hdecl, Hdecl2.
      auto.
    + exists more1. auto.
Qed.

(** X1: over any stream of events, from the start of a session, the register
    the dispatcher holds is one of IDLE, BYPASS, IDCODE, PDICOM and UNKNOWN,
    also when the stream ends in an exception. *)
Theorem run_state_names (evs : list (Z * Z * Event)) :
  In (state (snd (run evs init))) state_names.
Proof.
  destruct (run_invariant evs init) as (more & _ & _ & _ & H);
    [cbn; auto | exact H].
Qed.

(** X2: over any stream of events, the only exceptions that leave [decode]
    are [ValueError] and [IndexError]: the table lookups of the parity
    classes and the look-up of the register handler by name never fail, and
    the sample ranges are in place whenever a handler reads them. *)
Theorem run_raises_only (evs : list (Z * Z * Event)) (ex : Exn) :
  fst (run evs init) = Raise ex -> ex = ValueError \/ ex = IndexError.
Proof.
  intros H.
  destruct (run_invariant evs init) as (more & _ & _ & Hben & _);
    [cbn; auto |].
  rewrite H in Hben. exact Hben.
Qed.

Lemma run_raises_only_witness :
  let evs := [ (0, 39, Shift IR_TDI "0111"
                             [(0, 9); (10, 19); (20, 29); (30, 39)]);
               (40, 49, Shift DR_TDI "" []) ]%Z in
  fst (run evs init) = Raise IndexError
  /\ (IndexError = ValueError \/ IndexError = IndexError).
Proof.
  cbv zeta. split; [reflexivity |].
  apply (run_raises_only
           [ (0, 39, Shift IR_TDI "0111"
                           [(0, 9); (10, 19); (20, 29); (30, 39)]);
             (40, 49, Shift DR_TDI "" []) ]%Z).
  reflexivity.
Defined.

(** X3: every annotation the decoder hands to the sink, over any stream of
    events, has a class that indexes [annotations], is shown by exactly one
    of the [annotation_rows], and carries at least one text. *)
Theorem run_emits_declared (evs : list (Z * Z * Event)) :
  forallb declared (out (snd (run evs init))) = true.
Proof.
  destruct (run_invariant evs init) as (more & Hout & Hdecl & _);
    [cbn; auto |].
  rewrite Hout. exact Hdecl.
Qed.

(** X4: when [decode] raises, the register selected is the one selected
    before the call, and the event was a data-register shift under IDCODE or
    under PDICOM: an instruction-register shift, a state notification and
    the registers IDLE, BYPASS and UNKNOWN never raise. *)
Theorem decode_raise_keeps_state (d : Decoder) (s e : Z) (ev : Event)
        (ex : Exn) :
  In (state d) state_names ->
  fst (decode s e ev d) = Raise ex ->
  state (snd (decode s e ev d)) = state d
  /\ is_dr_shift (s, e, ev) = true
  /\ (state d = "IDCODE" \/ state d = "PDICOM").
Proof.
  intros Hin Hex.
  destruct (decode_invariant d s e ev Hin) as (more & _ & _ & _ & _ & H).
  exact (H ex Hex).
Qed.

Lemma decode_raise_keeps_state_witness :
  In (state (selected "IDCODE")) state_names
  /\ fst (decode 10 19 (Shift DR_TDO "0" [(10, 19)%Z]) (selected "IDCODE"))
     = Raise ValueError
  /\ state (snd (decode 10 19 (Shift DR_TDO "0" [(10, 19)%Z])
                        (selected "IDCODE")))
     = state (selected "IDCODE").
Proof.
  split; [cbn; auto |]. split; [reflexivity |].
  apply (decode_raise_keeps_state (selected "IDCODE") 10 19
           (Shift DR_TDO "0" [(10, 19)%Z]) ValueError);
    [cbn; auto | reflexivity].
Defined.

(** ** Selecting a register *)

(** X5: an instruction-register shift (IR TDI) selects the register by the
    first four characters of its bit string alone, whatever was selected
    before and whatever follows the four characters: IDCODE exactly for
    0011, PDICOM exactly for 0111, BYPASS exactly for 1111.  The call
    returns and emits one command annotation over the span of the event,
    naming the register now selected. *)
Theorem decode_ir_selects (d : Decoder) (s e : Z) (k rest : string)
        (sn : list (Z * Z)) :
  String.length k = 4%nat ->
  let r := decode s e (Shift IR_TDI (k ++ rest) sn) d in
  fst r = Ok tt
  /\ emitted d r = [mkPut s e A.JTAG_COMMAND ["IR: " ++ state (snd r)]]
  /\ (state (snd r) = "IDCODE" <-> k = "0011")
  /\ (state (snd r) = "PDICOM" <-> k = "0111")
  /\ (state (snd r) = "BYPASS" <-> k = "1111").
Proof.
  intros Hk r. unfold r.
  destruct (decode_ir_step d s e (k ++ rest) sn) as [-> _].
  rewrite (slice_prefix4 k rest Hk).
  cbn [fst snd state dict_get ir].
  split; [reflexivity |].
  split.
  { unfold emitted. cbn [snd out].
    rewrite skipn_app, skipn_all, Nat.sub_diag. reflexivity. }
  destruct (String.eqb "0011" k) eqn:E1;
    [apply String.eqb_eq in E1; subst k; cbn [fst];
     repeat split; intros; (reflexivity || discriminate) |].
  destruct (String.eqb "0111" k) eqn:E2;
    [apply String.eqb_eq in E2; subst k; cbn [fst];
     repeat split; intros; (reflexivity || discriminate) |].
  destruct (String.eqb "1111" k) eqn:E3;
    [apply String.eqb_eq in E3; subst k; cbn [fst];
     repeat split; intros; (reflexivity || discriminate) |].
  apply String.eqb_neq in E1, E2, E3. cbn [fst].
  repeat split; intros H; try discriminate H; congruence.
Qed.

Lemma decode_ir_selects_witness :
  String.length "0111" = 4%nat
  /\ let r := decode 0 79 (Shift IR_TDI ("0111" ++ "1010") []) 
                     (selected "BYPASS") in
     fst r = Ok tt
     /\ emitted (selected "BYPASS") r
        = [mkPut 0 79 A.JTAG_COMMAND ["IR: " ++ state (snd r)]]
     /\ (state (snd r) = "IDCODE" <-> "0111" = "0011")
     /\ (state (snd r) = "PDICOM" <-> "0111" = "0111")
     /\ (state (snd r) = "BYPASS" <-> "0111" = "1111").
Proof.
  split; [reflexivity |].
  exact (decode_ir_selects (selected "BYPASS") 0 79 "0111" "1010" []
                           eq_refl).
Defined.

Lemma slice_short (val : string) :
  (String.length val < 4)%nat ->
  slice val (Some 0%Z) (Some 4%Z) = val.
Proof.
  intros H. unfold slice, clamp, len.
  cbn [Z.ltb Z.compare].
  rewrite Z.min_l, Z.min_r by lia.
  destruct (0 <? Z.of_nat (String.length val))%Z eqn:E.
  - rewrite Z.sub_0_r, Nat2Z.id. apply substring_all.
  - apply Z.ltb_ge in E. destruct val; [reflexivity | simpl in E; lia].
Qed.

(** X6: an instruction-register shift of fewer than four bits selects
    UNKNOWN: the slice [val[0:4]] is then the whole string, which is no key
    of the table. *)
Theorem decode_ir_short_unknown (d : Decoder) (s e : Z) (val : string)
        (sn : list (Z * Z)) :
  (String.length val < 4)%nat ->
  decode s e (Shift IR_TDI val sn) d
  = (Ok tt, mkDecoder "UNKNOWN" (Some (rev sn)) s e
              (out d ++ [mkPut s e A.JTAG_COMMAND ["IR: UNKNOWN"]])).
Proof.
  intros H. apply decode_ir_unselected.
  rewrite (slice_short val H).
  apply ir_lookup_unknown; intros ->; simpl in H; lia.
Qed.

Lemma decode_ir_short_unknown_witness :
  (String.length "111" < 4)%nat
  /\ decode 0 29 (Shift IR_TDI "111" []) (selected "PDICOM")
     = (Ok tt, mkDecoder "UNKNOWN" (Some (rev [])) 0 29
                 (out (selected "PDICOM")
                  ++ [mkPut 0 29 A.JTAG_COMMAND ["IR: UNKNOWN"]])).
Proof.
  split; [simpl; lia |].
  apply (decode_ir_short_unknown (selected "PDICOM") 0 29 "111" []).
  simpl; lia.
Defined.

(** ** Events that are ignored *)

(** X7: a state notification (NEW STATE) and the device-to-host half of an
    instruction-register shift (IR TDO) are ignored whatever is selected:
    the call returns, nothing is emitted, the register stays; the span of
    the event is recorded, and for IR TDO its sample ranges too. *)
Theorem decode_ignores_new_state_and_ir_tdo (d : Decoder) (s e : Z)
        (name bits : string) (sn : list (Z * Z)) :
  decode s e (NewState name) d
  = (Ok tt, mkDecoder (state d) (samplenums d) s e (out d))
  /\ decode s e (Shift IR_TDO bits sn) d
     = (Ok tt, mkDecoder (state d) (Some (rev sn)) s e (out d)).
Proof.
  split.
  - change (decode s e (NewState name) d)
      with ((st <- get_state ;;
             if st =? "BYPASS" then ret tt
             else if str_in st "IDCODE" then ret tt
             else if st =? "PDICOM" then ret tt
             else ret tt)
              (mkDecoder (state d) (samplenums d) s e (out d))).
    unfold bind, get_state. cbn [state].
    destruct (state d =? "BYPASS"); [reflexivity |].
    destruct (str_in (state d) "IDCODE"); [reflexivity |].
    destruct (state d =? "PDICOM"); reflexivity.
  - change (decode s e (Shift IR_TDO bits sn) d)
      with ((st <- get_state ;;
             if st =? "BYPASS" then ret tt
             else if str_in st "IDCODE" then ret tt
             else if st =? "PDICOM" then ret tt
             else ret tt)
              (mkDecoder (state d) (Some (rev sn)) s e (out d))).
    unfold bind, get_state. cbn [state].
    destruct (state d =? "BYPASS"); [reflexivity |].
    destruct (str_in (state d) "IDCODE"); [reflexivity |].
    destruct (state d =? "PDICOM"); reflexivity.
Qed.

Lemma run_from_idle (evs : list (Z * Z * Event)) :
  forallb (fun x => negb (is_ir_tdi x)) evs = true ->
  forall d, state d = "IDLE" ->
            fst (run evs d) = Ok tt
            /\ state (snd (run evs d)) = "IDLE"
            /\ out (snd (run evs d)) = out d.
Proof.
  induction evs as [| [[s e] ev] evs IH]; intros Hall d Hst.
  - repeat split. exact Hst.
  - cbn [forallb] in Hall. apply andb_true_iff in Hall.
    destruct Hall as [Hev Hall].
    cbn [run]. unfold bind.
    rewrite (decode_other_step d s e ev).
    + destruct (IH Hall (mkDecoder (state d)
                           match ev with
                           | NewState _ => samplenums d
                           | Shift _ _ sn => Some (rev sn)
                           end s e (out d)) Hst)
        as (Hok & Hstate & Hout).
      repeat split; assumption.
    + rewrite Hst. cbn. auto.
    + destruct ev as [name | [] bits sn]; try exact I; try exact Hst.
      discriminate Hev.
Qed.

(** X8: while IDLE is selected, as at the start of a session and after each
    BYPASS or IDCODE transaction, every event that is not an IR TDI shift is
    ignored: a run of such events returns, emits nothing and leaves IDLE
    selected.  Data-register shifts are decoded only after a register has
    been selected again. *)
Theorem run_idle_ignores (evs : list (Z * Z * Event)) (d : Decoder) :
  state d = "IDLE" ->
  forallb (fun x => negb (is_ir_tdi x)) evs = true ->
  fst (run evs d) = Ok tt
  /\ state (snd (run evs d)) = "IDLE"
  /\ out (snd (run evs d)) = out d.
Proof.
  intros Hst Hall. apply (run_from_idle evs Hall d Hst).
Qed.

Lemma run_idle_ignores_witness :
  let evs := [ (0, 9, Shift DR_TDI "1" [(0, 9)]);
               (10, 19, NewState "RUN-TEST/IDLE");
               (20, 109, Shift DR_TDO "011111111" nine_samples) ]%Z in
  state init = "IDLE"
  /\ forallb (fun x => negb (is_ir_tdi x)) evs = true
  /\ fst (run evs init) = Ok tt
  /\ state (snd (run evs init)) = "IDLE"
  /\ out (snd (run evs init)) = out init.
Proof.
  cbv zeta. split; [reflexivity |]. split; [reflexivity |].
  apply (run_idle_ignores
           [ (0, 9, Shift DR_TDI "1" [(0, 9)]);
             (10, 19, NewState "RUN-TEST/IDLE");
             (20, 109, Shift DR_TDO "011111111" nine_samples) ]%Z init);
    reflexivity.
Defined.

(** ** Annotation spans *)

Lemma handle_reg_idcode_run (cmd bits : string) (d : Decoder)
      (l : list (Z * Z)) :
  String.length bits = 32%nat -> bit_string bits = true ->
  samplenums d = Some l -> (32 <= List.length l)%nat ->
  let id_hex := fmt_hex (bin_value bits) in
  let manuf := dict_get Z.eqb jedec_id (bin_value (substring 20 11 bits))
                        "INVALID" in
  let vers := bin_value (substring 0 4 bits) in
  let part := dict_get Z.eqb avr_idcode (bin_value (substring 4 16 bits))
                       (fmt_hex (bin_value (substring 4 16 bits))) in
  let z := (0, 0)%Z in
  handle_reg_idcode cmd bits d
  = (Ok tt,
     with_out d
       [ mkPut (fst (nth 0 l z)) (snd (nth 0 l z)) A.JTAG_FIELD
               ["Reserved"; "Res"; "R"];
         mkPut (fst (nth 1 l z)) (snd (nth 11 l z)) A.JTAG_FIELD
               ["Manufacturer: " ++ manuf; "Manuf"; "M"];
         mkPut (fst (nth 12 l z)) (snd (nth 27 l z)) A.JTAG_FIELD
               ["Part: " ++ part; "Part"; "P"];
         mkPut (fst (nth 28 l z)) (snd (nth 31 l z)) A.JTAG_FIELD
               ["Version: " ++ fmt_int vers; "Version"; "V"];
         mkPut (ss d) (es d) A.JTAG_ITEM ["IDCODE: " ++ id_hex];
         mkPut (ss d) (es d) A.JTAG_COMMAND
               ["IDCODE: " ++ id_hex ++ " (" ++ manuf ++ ": " ++ part
                ++ "@r" ++ fmt_int vers ++ ")"] ]).
Proof.
  intros Hlen Hbits Hsn Hn id_hex manuf vers part z.
  unfold handle_reg_idcode, bind, lift.
  rewrite (decode_device_id_code_fields bits Hlen Hbits).
  fold id_hex manuf vers part.
  unfold putb.
  rewrite (putf_ok d l 0 0 _ _ Hsn) by lia.
  erewrite (putf_ok (with_out d _) l 1 11 _ _ Hsn) by lia.
  rewrite with_out_app.
  erewrite (putf_ok (with_out d _) l 12 27 _ _ Hsn) by lia.
  rewrite with_out_app.
  erewrite (putf_ok (with_out d _) l 28 31 _ _ Hsn) by lia.
  rewrite with_out_app.
  unfold putx, emit. cbn [state samplenums ss es out with_out].
  unfold with_out. rewrite <- !app_assoc. reflexivity.
Qed.

Lemma nth_rev_samples (sn : list (Z * Z)) (n i : nat) :
  List.length sn = S n -> (i <= n)%nat ->
  nth i (rev sn) (0, 0)%Z = nth (n - i) sn (0, 0)%Z.
Proof.
  intros Hlen Hi. rewrite rev_nth by lia. f_equal. lia.
Qed.

(** X9: a device-to-host shift of 32 bits under IDCODE, with one sample
    range per bit in the order of the bit string, emits six annotations and
    selects IDLE.  Each field annotation lies over the samples of the string
    positions the field is read from, starting at the start of the sample of
    its last position and ending at the end of the sample of its first:
    position 31 for the reserved bit, 30 down to 20 for the manufacturer, 19
    down to 4 for the part, 3 down to 0 for the version.  The item and the
    command annotation lie over the span of the event. *)
Theorem decode_idcode_annotations (d : Decoder) (s e : Z) (bits : string)
        (sn : list (Z * Z)) :
  state d = "IDCODE" ->
  String.length bits = 32%nat -> bit_string bits = true ->
  List.length sn = 32%nat ->
  exists (id_hex manuf : string) (vers : Z) (part : string),
    decode_device_id_code bits = Ok (id_hex, manuf, vers, part)
    /\ let z := (0, 0)%Z in
       decode s e (Shift DR_TDO bits sn) d
       = (Ok tt,
          mkDecoder "IDLE" (Some (rev sn)) s e
            (out d ++
             [ mkPut (fst (nth 31 sn z)) (snd (nth 31 sn z)) A.JTAG_FIELD
                     ["Reserved"; "Res"; "R"];
               mkPut (fst (nth 30 sn z)) (snd (nth 20 sn z)) A.JTAG_FIELD
                     ["Manufacturer: " ++ manuf; "Manuf"; "M"];
               mkPut (fst (nth 19 sn z)) (snd (nth 4 sn z)) A.JTAG_FIELD
                     ["Part: " ++ part; "Part"; "P"];
               mkPut (fst (nth 3 sn z)) (snd (nth 0 sn z)) A.JTAG_FIELD
                     ["Version: " ++ fmt_int vers; "Version"; "V"];
               mkPut s e A.JTAG_ITEM ["IDCODE: " ++ id_hex];
               mkPut s e A.JTAG_COMMAND
                     ["IDCODE: " ++ id_hex ++ " (" ++ manuf ++ ": " ++ part
                      ++ "@r" ++ fmt_int vers ++ ")"] ])).
Proof.
  intros Hst Hlen Hbits Hsn.
  do 4 eexists.
  split; [apply (decode_device_id_code_fields bits Hlen Hbits) |].
  cbv zeta.
  rewrite (decode_idcode_step d s e DR_TDO bits sn Hst) by auto.
  unfold bind.
  rewrite (handle_reg_idcode_run "DR TDO" bits
             (mkDecoder "IDCODE" (Some (rev sn)) s e (out d)) (rev sn)
             Hlen Hbits eq_refl)
    by (rewrite length_rev; lia).
  rewrite !(nth_rev_samples sn 31) by (assumption || lia).
  reflexivity.
Qed.

Lemma decode_idcode_annotations_witness :
  state (selected "IDCODE") = "IDCODE"
  /\ String.length "00001001011001000010000000111111" = 32%nat
  /\ bit_string "00001001011001000010000000111111" = true
  /\ List.length idcode_samples = 32%nat
  /\ exists (id_hex manuf : string) (vers : Z) (part : string),
       decode_device_id_code "00001001011001000010000000111111"
       = Ok (id_hex, manuf, vers, part)
       /\ state (snd (decode 0 319
                        (Shift DR_TDO "00001001011001000010000000111111"
                               idcode_samples)
                        (selected "IDCODE"))) = "IDLE".
Proof.
  repeat (split; [reflexivity |]).
  destruct (decode_idcode_annotations (selected "IDCODE") 0 319
              "00001001011001000010000000111111" idcode_samples
              eq_refl eq_refl eq_refl eq_refl)
    as (id_hex & manuf & vers & part & Hdec & Hrun).
  exists id_hex, manuf, vers, part.
  split; [exact Hdec |].
  cbv zeta in Hrun. rewrite Hrun. reflexivity.
Defined.

(** X10: a data-register shift of a nine-bit frame under PDICOM, with one
    sample range per bit in the order of the bit string, returns and leaves
    PDICOM selected.  A device-to-host frame is announced by the PDICOM
    command annotation.  The data annotation lies over the samples of the
    eight data bits, from the start of the sample of position 8 to the end
    of the sample of position 1; the parity annotation lies over the sample
    of position 0; a special character, when the parity check fails, lies
    over the span of the event. *)
Theorem decode_pdicom_frame_annotations (d : Decoder) (s e : Z)
        (c : ShiftCmd) (p : ascii) (dd : string) (sn : list (Z * Z)) :
  state d = "PDICOM" -> c = DR_TDI \/ c = DR_TDO ->
  is_bit p = true -> bit_string dd = true -> String.length dd = 8%nat ->
  List.length sn = 9%nat ->
  let data := bin_value dd in
  let ok := Z.even (popcount dd + bit_val p) in
  let text := fmt_hex04 data in
  let z := (0, 0)%Z in
  let tdi := match c with DR_TDI => true | _ => false end in
  decode s e (Shift c (String p dd) sn) d
  = (Ok tt,
     mkDecoder "PDICOM" (Some (rev sn)) s e
       (out d
        ++ (if tdi then [] else [mkPut s e A.JTAG_COMMAND ["PDICOM"]])
        ++ [ mkPut (fst (nth 8 sn z)) (snd (nth 1 sn z))
                   (if tdi then A.DATA_IN else A.DATA_OUT)
                   ["Data: " ++ text; "D: " ++ text; text];
             mkPut (fst (nth 0 sn z)) (snd (nth 0 sn z))
                   (if tdi
                    then if ok then A.PARITY_IN_OK else A.PARITY_IN_ERR
                    else if ok then A.PARITY_OUT_OK else A.PARITY_OUT_ERR)
                   (if ok then ["Parity OK"; "Par OK"; "P"]
                    else ["Parity error"; "Par ERR"; "PE"]) ]
        ++ (if ok then []
            else [mkPut s e (if tdi then A.DATA_PROG else A.DATA_DEV)
                        [special_label data]]))).
Proof.
  intros Hst Hc Hp Hd Hlen Hsn data ok text z tdi.
  rewrite (decode_pdicom_step d s e c (String p dd) sn Hst Hc).
  destruct Hc; subst c; cbn [tdi].
  - unfold PDIDecoder.handleInput, bind.
    rewrite (checkParity_frame p dd A.DATA_IN
               (mkDecoder "PDICOM" (Some (rev sn)) s e (out d)) (rev sn)
               Hp Hd Hlen (or_introl eq_refl) eq_refl)
      by (rewrite length_rev; lia).
    fold data ok.
    unfold data_annotation, parity_annotation, special_annotation.
    rewrite !(nth_rev_samples sn 8) by (assumption || lia).
    fold text. cbn [Nat.sub ss es with_out state samplenums out snd].
    destruct ok; reflexivity.
  - unfold PDIDecoder.handleOutput, bind.
    rewrite (checkParity_frame p dd A.DATA_OUT
               (mkDecoder "PDICOM" (Some (rev sn)) s e
                  (out d ++ [mkPut s e A.JTAG_COMMAND ["PDICOM"]]))
               (rev sn) Hp Hd Hlen (or_intror eq_refl) eq_refl)
      by (rewrite length_rev; lia).
    fold data ok.
    unfold data_annotation, parity_annotation, special_annotation.
    rewrite !(nth_rev_samples sn 8) by (assumption || lia).
    fold text. unfold with_out.
    cbn [Nat.sub ss es state samplenums out snd].
    rewrite <- app_assoc.
    destruct ok; reflexivity.
Qed.

Lemma decode_pdicom_frame_annotations_witness :
  state (selected "PDICOM") = "PDICOM"
  /\ is_bit "1" = true /\ bit_string "10111011" = true
  /\ String.length "10111011" = 8%nat
  /\ List.length nine_samples = 9%nat
  /\ decode 0 89 (Shift DR_TDO "110111011" nine_samples)
            (selected "PDICOM")
     = (Ok tt,
        mkDecoder "PDICOM" (Some (rev nine_samples)) 0 89
          [ mkPut 0 89 A.JTAG_COMMAND ["PDICOM"];
            mkPut 0 79 A.DATA_OUT ["Data: 0xbb"; "D: 0xbb"; "0xbb"];
            mkPut 80 89 A.PARITY_OUT_ERR ["Parity error"; "Par ERR"; "PE"];
            mkPut 0 89 A.DATA_DEV ["BREAK"] ]).
Proof.
  repeat (split; [reflexivity |]).
  rewrite (decode_pdicom_frame_annotations (selected "PDICOM") 0 89 DR_TDO
             "1" "10111011" nine_samples eq_refl (or_intror eq_refl)
             eq_refl eq_refl eq_refl eq_refl).
  reflexivity.
Defined.

(** ** PDI sessions *)

Lemma decode_pdicom_frame_ok (d : Decoder) (s e : Z) (ev : Event) :
  state d = "PDICOM" -> is_pdi_frame (s, e, ev) = true ->
  exists more,
    decode s e ev d
    = (Ok tt, mkDecoder "PDICOM"
                (match ev with
                 | Shift _ _ sn => Some (rev sn)
                 | NewState _ => None
                 end) s e (out d ++ more))
    /\ (2 <= List.length more <= 4)%nat.
Proof.
  intros Hst Hev. unfold is_pdi_frame in Hev. cbn [snd] in Hev.
  destruct ev as [name | c bits sn]; [discriminate Hev |].
  assert (Hc : c = DR_TDI \/ c = DR_TDO)
    by (destruct c; try discriminate Hev; auto).
  assert (Hev' : bit_string bits && (String.length bits =? 9)%nat
                 && (9 <=? List.length sn)%nat = true)
    by (destruct Hc; subst c; exact Hev).
  apply andb_true_iff in Hev'. destruct Hev' as [Hev' Hsn].
  apply andb_true_iff in Hev'. destruct Hev' as [Hbits Hlen].
  apply Nat.eqb_eq in Hlen. apply Nat.leb_le in Hsn.
  destruct bits as [| p dd]; [discriminate Hlen |].
  apply andb_true_iff in Hbits. destruct Hbits as [Hp Hd].
  cbn [String.length] in Hlen. injection Hlen as Hlen.
  rewrite (decode_pdicom_step d s e c (String p dd) sn Hst Hc).
  destruct Hc; subst c.
  - unfold PDIDecoder.handleInput, bind.
    rewrite (checkParity_frame p dd A.DATA_IN
               (mkDecoder "PDICOM" (Some (rev sn)) s e (out d)) (rev sn)
               Hp Hd Hlen (or_introl eq_refl) eq_refl)
      by (rewrite length_rev; lia).
    unfold with_out. cbn [state samplenums ss es out snd negb].
    destruct (Z.even (popcount dd + bit_val p)); eexists;
      (split; [reflexivity | cbn [List.length]; lia]).
  - unfold PDIDecoder.handleOutput, bind.
    rewrite (checkParity_frame p dd A.DATA_OUT
               (mkDecoder "PDICOM" (Some (rev sn)) s e
                  (out d ++ [mkPut s e A.JTAG_COMMAND ["PDICOM"]]))
               (rev sn) Hp Hd Hlen (or_intror eq_refl) eq_refl)
      by (rewrite length_rev; lia).
    unfold with_out. cbn [state samplenums ss es out snd negb].
    rewrite <- app_assoc.
    destruct (Z.even (popcount dd + bit_val p)); eexists;
      (split; [reflexivity | cbn [List.length app]; lia]).
Qed.

(** X11: PDICOM stays selected across frames.  A run of data-register
    shifts under PDICOM, each a nine-bit frame with a sample range for each
    bit, in any mix of directions, returns, leaves PDICOM selected and emits
    between two and four annotations for each frame. *)
Theorem run_pdi_session (evs : list (Z * Z * Event)) (d : Decoder) :
  state d = "PDICOM" -> forallb is_pdi_frame evs = true ->
  fst (run evs d) = Ok tt
  /\ state (snd (run evs d)) = "PDICOM"
  /\ (List.length (out d) + 2 * List.length evs
      <= List.length (out (snd (run evs d)))
      <= List.length (out d) + 4 * List.length evs)%nat.
Proof.
  revert d. induction evs as [| [[s e] ev] evs IH]; intros d Hst Hall.
  - cbn [run ret fst snd List.length]. repeat split; (exact Hst || lia).
  - cbn [forallb] in Hall. apply andb_true_iff in Hall.
    destruct Hall as [Hev Hall].
    destruct (decode_pdicom_frame_ok d s e ev Hst Hev)
      as (more & Hrun & Hcount).
    cbn [run]. unfold bind. rewrite Hrun.
    destruct (IH (mkDecoder "PDICOM"
                    match ev with
                    | Shift _ _ sn => Some (rev sn)
                    | NewState _ => None
                    end s e (out d ++ more)) eq_refl Hall)
      as (Hok & Hstate & Hlen).
    cbn [out] in Hlen. rewrite length_app in Hlen.
    cbn [List.length].
    repeat split; (assumption || lia).
Qed.

Lemma run_pdi_session_witness :
  let evs := [ (0, 89, Shift DR_TDI "100000000" nine_samples);
               (90, 179, Shift DR_TDO "011111111" nine_samples);
               (180, 269, Shift DR_TDO "110111011" nine_samples) ]%Z in
  state pdi_session = "PDICOM"
  /\ forallb is_pdi_frame evs = true
  /\ fst (run evs pdi_session) = Ok tt
  /\ state (snd (run evs pdi_session)) = "PDICOM".
Proof.
  cbv zeta. split; [reflexivity |]. split; [reflexivity |].
  destruct (run_pdi_session
              [ (0, 89, Shift DR_TDI "100000000" nine_samples);
                (90, 179, Shift DR_TDO "011111111" nine_samples);
                (180, 269, Shift DR_TDO "110111011" nine_samples) ]%Z
              pdi_session eq_refl eq_refl) as (Hok & Hst & _).
  split; assumption.
Defined.

(** ** The data byte *)

Lemma bin_value_from_bound (s : string) :
  forall acc, (0 <= acc)%Z ->
              (bin_value_from acc s
               < (acc + 1) * 2 ^ Z.of_nat (String.length s))%Z.
Proof.
  induction s as [| c s IH]; intros acc Hacc.
  - cbn [bin_value_from String.length Z.of_nat]. lia.
  - cbn [bin_value_from String.length].
    pose proof (bit_val_range c) as Hc.
    specialize (IH (2 * acc + bit_val c)%Z ltac:(lia)).
    rewrite Nat2Z.inj_succ, Z.pow_succ_r by lia.
    assert (0 < 2 ^ Z.of_nat (String.length s))%Z
      by (apply Z.pow_pos_nonneg; lia).
    nia.
Qed.

Lemma fmt_hex04_byte (z : Z) :
  (0 <= z < 256)%Z -> fmt_hex04 z = byte_text z.
Proof.
  intros Hz.
  assert (Hall : forallb
                   (fun k => String.eqb (fmt_hex04 (Z.of_nat k))
                                        (byte_text (Z.of_nat k)))
                   (seq 0 256) = true) by (vm_compute; reflexivity).
  rewrite forallb_forall in Hall.
  specialize (Hall (Z.to_nat z)).
  rewrite Z2Nat.id in Hall by lia.
  apply String.eqb_eq, Hall, in_seq. lia.
Qed.

(** X12: the data value [checkParity] returns for a nine-bit frame is the
    byte its data bits denote, between 0 and 255, and the text of the data
    annotation is [0x] followed by exactly two lower-case hexadecimal
    digits, the high digit of the byte and then the low one, in its three
    renderings [Data: 0x..], [D: 0x..] and [0x..]. *)
Theorem checkParity_data_byte (p : ascii) (d : string) (dir : Z)
        (dec : Decoder) (sn : list (Z * Z)) :
  is_bit p = true -> bit_string d = true -> String.length d = 8%nat ->
  dir = A.DATA_IN \/ dir = A.DATA_OUT ->
  samplenums dec = Some sn -> (9 <= List.length sn)%nat ->
  let run := PDIDecoder.checkParity (String p d) dir dec in
  exists (data : Z) (ok : bool) (text : string),
    returned run = Some (data, ok)
    /\ data = bin_value d
    /\ (0 <= data <= 255)%Z
    /\ text = String "0" (String "x"
                (String (hex_char (data / 16))
                   (String (hex_char (data mod 16)) "")))
    /\ String.length text = 4%nat
    /\ String.prefix "0x" text = true
    /\ option_map put_text (hd_error (emitted dec run))
       = Some ["Data: " ++ text; "D: " ++ text; text].
Proof.
  intros Hp Hd Hlen Hdir Hsn Hn run.
  unfold run. rewrite (checkParity_frame p d dir dec sn) by assumption.
  rewrite emitted_with_out.
  exists (bin_value d), (Z.even (popcount d + bit_val p)),
         (fmt_hex04 (bin_value d)).
  assert (Hrange : (0 <= bin_value d <= 255)%Z).
  { pose proof (bin_value_nonneg d).
    pose proof (bin_value_from_bound d 0%Z ltac:(lia)) as Hb.
    rewrite Hlen in Hb. change (bin_value_from 0 d) with (bin_value d) in Hb.
    change ((0 + 1) * 2 ^ Z.of_nat 8)%Z with 256%Z in Hb. lia. }
  pose proof (fmt_hex04_byte (bin_value d) ltac:(lia)) as Htext.
  split; [reflexivity |]. split; [reflexivity |]. split; [exact Hrange |].
  split; [exact Htext |].
  split; [rewrite Htext; reflexivity |].
  split; [rewrite Htext; reflexivity |].
  reflexivity.
Qed.

Lemma checkParity_data_byte_witness :
  is_bit "0" = true /\ bit_string "10101111" = true
  /\ String.length "10101111" = 8%nat
  /\ samplenums pdi_session = Some nine_samples
  /\ (9 <= List.length nine_samples)%nat
  /\ let run := PDIDecoder.checkParity "010101111" A.DATA_IN pdi_session in
     exists (ok : bool),
       returned run = Some (0xAF%Z, ok)
       /\ option_map put_text (hd_error (emitted pdi_session run))
          = Some ["Data: 0xaf"; "D: 0xaf"; "0xaf"].
Proof.
  repeat (split; [reflexivity |]).
  destruct (checkParity_data_byte "0" "10101111" A.DATA_IN pdi_session
              nine_samples eq_refl eq_refl eq_refl (or_introl eq_refl)
              eq_refl (le_n 9))
    as (data & ok & text & Hret & Hdata & _ & Htext & _ & _ & Hem).
  cbv zeta. exists ok.
  rewrite Hret, Hem, Htext, Hdata. split; reflexivity.
Defined.

(** ** Frames and sample ranges of the wrong shape *)

Lemma samplenum_missing (d : Decoder) (l : list (Z * Z)) (i : nat) :
  samplenums d = Some l -> (List.length l <= i)%nat ->
  samplenum i d = (Raise IndexError, d).
Proof.
  intros Hs Hi. unfold samplenum, list_item. rewrite Hs.
  apply nth_error_None in Hi. rewrite Hi. reflexivity.
Qed.

(** X13: a nine-bit frame that meets fewer than nine sample ranges raises
    [IndexError].  With fewer than eight ranges nothing is emitted; with
    exactly eight the data annotation has been emitted when the parity
    annotation fails. *)
Theorem checkParity_short_samples (p : ascii) (d : string) (dir : Z)
        (dec : Decoder) (l : list (Z * Z)) :
  is_bit p = true -> bit_string d = true -> String.length d = 8%nat ->
  dir = A.DATA_IN \/ dir = A.DATA_OUT ->
  samplenums dec = Some l -> (List.length l < 9)%nat ->
  let run := PDIDecoder.checkParity (String p d) dir dec in
  fst run = Raise IndexError
  /\ emitted dec run
     = (if (List.length l =? 8)%nat
        then [data_annotation l dir (bin_value d)]
        else []).
Proof.
  intros Hp Hd Hlen Hdir Hsn Hn run. unfold run.
  assert (Hne : d <> "") by (destruct d; [discriminate | congruence]).
  unfold PDIDecoder.checkParity, bind, lift.
  rewrite str_item_0. cbn [res_bind].
  rewrite (int_bit_char _ Hp), slice_tail, (int_0b_bits _ Hd Hne).
  rewrite (sum_bits_popcount _ Hd).
  unfold len. cbn [String.length]. rewrite Hlen.
  cbn [Z.of_nat Pos.of_succ_nat Pos.succ Z.eqb Pos.eqb negb].
  destruct (List.length l =? 8)%nat eqn:E.
  - apply Nat.eqb_eq in E.
    rewrite (putf_ok dec l 0 7 _ _ Hsn) by lia.
    unfold PDIDecoder.putb, decoder_putb, putb, putf, bind, lift.
    destruct Hdir; subst dir;
      destruct (Z.land (popcount d + bit_val p) 1 =? 0)%Z;
      cbn [dict_item PDIDecoder.ann_class PDIDecoder.ann_class_text
           A.DATA_IN A.DATA_OUT A.PARITY_OK A.PARITY_ERR A.BREAK Z.eqb
           Pos.eqb];
      erewrite (samplenum_missing (with_out dec _) l 8 Hsn) by lia;
      cbn [fst snd]; rewrite emitted_with_out; split; reflexivity.
  - apply Nat.eqb_neq in E.
    unfold putf, bind.
    destruct (Nat.eq_dec (List.length l) 0) as [H0 | H0].
    + rewrite (samplenum_missing dec l 0 Hsn) by lia.
      cbn [fst snd]. split; [reflexivity |].
      unfold emitted. cbn [snd]. apply skipn_all.
    + rewrite (samplenum_ok dec l 0 Hsn) by lia.
      rewrite (samplenum_missing dec l 7 Hsn) by lia.
      cbn [fst snd]. split; [reflexivity |].
      unfold emitted. cbn [snd]. apply skipn_all.
Qed.

Lemma checkParity_short_samples_witness :
  let dec := mkDecoder "PDICOM" (Some (tl nine_samples)) 0 89 [] in
  is_bit "1" = true /\ bit_string "00000000" = true
  /\ String.length "00000000" = 8%nat
  /\ samplenums dec = Some (tl nine_samples)
  /\ (List.length (tl nine_samples) < 9)%nat
  /\ fst (PDIDecoder.checkParity "100000000" A.DATA_OUT dec)
     = Raise IndexError
  /\ emitted dec (PDIDecoder.checkParity "100000000" A.DATA_OUT dec)
     = [data_annotation (tl nine_samples) A.DATA_OUT (bin_value "00000000")].
Proof.
  cbv zeta. repeat (split; [reflexivity |]).
  split; [simpl; lia |].
  apply (checkParity_short_samples "1" "00000000" A.DATA_OUT
           (mkDecoder "PDICOM" (Some (tl nine_samples)) 0 89 [])
           (tl nine_samples));
    try reflexivity; [right; reflexivity | simpl; lia].
Defined.

(** X14: under PDICOM, a data-register shift whose bit string has two or
    more bits but not nine is dropped: the call returns, PDICOM stays
    selected, and nothing is emitted for the frame; a device-to-host shift
    leaves the PDICOM command annotation alone. *)
Theorem decode_pdicom_drops_wrong_length (d : Decoder) (s e : Z)
        (c : ShiftCmd) (bits : string) (sn : list (Z * Z)) :
  state d = "PDICOM" -> c = DR_TDI \/ c = DR_TDO ->
  bit_string bits = true ->
  (2 <= String.length bits)%nat -> String.length bits <> 9%nat ->
  decode s e (Shift c bits sn) d
  = (Ok tt,
     mkDecoder "PDICOM" (Some (rev sn)) s e
       (out d ++ match c with
                 | DR_TDO => [mkPut s e A.JTAG_COMMAND ["PDICOM"]]
                 | _ => []
                 end)).
Proof.
  intros Hst Hc Hbits Hlen2 Hlen9.
  rewrite (decode_pdicom_step d s e c bits sn Hst Hc).
  destruct bits as [| p dd]; [simpl in Hlen2; lia |].
  apply andb_true_iff in Hbits. destruct Hbits as [Hp Hd].
  cbn [String.length] in Hlen2, Hlen9.
  assert (Hne : dd <> "") by (destruct dd; [simpl in Hlen2; lia | congruence]).
  assert (Hlen8 : String.length dd <> 8%nat) by lia.
  destruct Hc; subst c.
  - unfold PDIDecoder.handleInput, bind.
    rewrite (checkParity_wrong_length p dd A.DATA_IN _ Hp Hd Hne Hlen8).
    cbn [snd negb ret]. rewrite app_nil_r. reflexivity.
  - unfold PDIDecoder.handleOutput, bind.
    rewrite (checkParity_wrong_length p dd A.DATA_OUT _ Hp Hd Hne Hlen8).
    reflexivity.
Qed.

Lemma decode_pdicom_drops_wrong_length_witness :
  state (selected "PDICOM") = "PDICOM"
  /\ bit_string "1010101011" = true
  /\ (2 <= String.length "1010101011")%nat
  /\ String.length "1010101011" <> 9%nat
  /\ decode 0 99 (Shift DR_TDO "1010101011" []) (selected "PDICOM")
     = (Ok tt,
        mkDecoder "PDICOM" (Some (rev [])) 0 99
          (out (selected "PDICOM")
           ++ [mkPut 0 99 A.JTAG_COMMAND ["PDICOM"]])).
Proof.
  split; [reflexivity |]. split; [reflexivity |].
  split; [simpl; lia |]. split; [discriminate |].
  apply (decode_pdicom_drops_wrong_length (selected "PDICOM") 0 99 DR_TDO
           "1010101011" []);
    try reflexivity; [right; reflexivity | simpl; lia | discriminate].
Defined.

(** ** Identification codes of the wrong width *)

Lemma decode_device_id_code_short (bits : string) :
  (String.length bits <= 28)%nat ->
  decode_device_id_code bits = Raise ValueError.
Proof.
  intros H. unfold decode_device_id_code.
  assert (Hv : slice bits (Some (-32)%Z) (Some (-28)%Z) = "").
  { unfold slice, clamp, len. cbn [Z.ltb Z.compare].
    rewrite !Z.max_r by lia. reflexivity. }
  rewrite Hv. reflexivity.
Qed.

(** X15: [decode_device_id_code] raises [ValueError] on any string of 28
    characters or fewer, the empty string included: the slice of the version
    bits is then empty.  Under IDCODE, a device-to-host shift that short
    raises out of [decode] with nothing emitted and IDCODE still selected. *)
Theorem decode_idcode_short_raises (d : Decoder) (s e : Z) (bits : string)
        (sn : list (Z * Z)) :
  (String.length bits <= 28)%nat -> state d = "IDCODE" ->
  decode_device_id_code bits = Raise ValueError
  /\ decode s e (Shift DR_TDO bits sn) d
     = (Raise ValueError, mkDecoder "IDCODE" (Some (rev sn)) s e (out d)).
Proof.
  intros Hlen Hst.
  split; [apply decode_device_id_code_short; exact Hlen |].
  rewrite (decode_idcode_step d s e DR_TDO bits sn Hst) by auto.
  unfold bind, handle_reg_idcode, lift.
  rewrite (decode_device_id_code_short bits Hlen). reflexivity.
Qed.

Lemma decode_idcode_short_raises_witness :
  (String.length "" <= 28)%nat /\ state (selected "IDCODE") = "IDCODE"
  /\ decode_device_id_code "" = Raise ValueError
  /\ decode 0 9 (Shift DR_TDO "" []) (selected "IDCODE")
     = (Raise ValueError,
        mkDecoder "IDCODE" (Some (rev [])) 0 9 (out (selected "IDCODE"))).
Proof.
  split; [simpl; lia |]. split; [reflexivity |].
  apply (decode_idcode_short_raises (selected "IDCODE") 0 9 "" []);
    [simpl; lia | reflexivity].
Defined.

Lemma substring_app_skip (pre b : string) (i m : nat) :
  substring (String.length pre + i) m (pre ++ b) = substring i m b.
Proof.
  induction pre as [| c pre IH]; [reflexivity |].
  cbn [String.length Nat.add append substring]. exact IH.
Qed.

Lemma slices_of_long_idcode (pre b : string) :
  String.length b = 32%nat ->
  slice (pre ++ b) (Some (-32)%Z) (Some (-28)%Z) = substring 0 4 b
  /\ slice (pre ++ b) (Some (-28)%Z) (Some (-12)%Z) = substring 4 16 b
  /\ slice (pre ++ b) (Some (-12)%Z) (Some (-1)%Z) = substring 20 11 b.
Proof.
  intros H.
  assert (Hlen : String.length (pre ++ b) = (String.length pre + 32)%nat).
  { rewrite <- H.
    induction pre as [| c pre IH]; [reflexivity |].
    cbn [append String.length Nat.add]. now rewrite IH. }
  unfold slice, clamp, len. rewrite Hlen.
  cbn [Z.ltb Z.compare].
  rewrite !Z.max_l by lia.
  repeat split.
  - destruct (_ <? _)%Z eqn:E; [| apply Z.ltb_ge in E; lia].
    replace (Z.to_nat (-32 + Z.of_nat (String.length pre + 32)))
      with (String.length pre + 0)%nat by lia.
    replace (Z.to_nat _) with 4%nat by lia.
    apply substring_app_skip.
  - destruct (_ <? _)%Z eqn:E; [| apply Z.ltb_ge in E; lia].
    replace (Z.to_nat (-28 + Z.of_nat (String.length pre + 32)))
      with (String.length pre + 4)%nat by lia.
    replace (Z.to_nat _) with 16%nat by lia.
    apply substring_app_skip.
  - destruct (_ <? _)%Z eqn:E; [| apply Z.ltb_ge in E; lia].
    replace (Z.to_nat (-12 + Z.of_nat (String.length pre + 32)))
      with (String.length pre + 20)%nat by lia.
    replace (Z.to_nat _) with 11%nat by lia.
    apply substring_app_skip.
Qed.

(** X16: on a bit string longer than 32 bits, [decode_device_id_code] reads
    manufacturer, version and part from the last 32 characters and ignores
    what precedes them; only the hexadecimal rendering covers the whole
    string. *)
Theorem decode_device_id_code_low_bits (pre b : string) :
  bit_string pre = true -> bit_string b = true ->
  String.length b = 32%nat ->
  exists (manuf : string) (vers : Z) (part : string),
    decode_device_id_code b = Ok (fmt_hex (bin_value b), manuf, vers, part)
    /\ decode_device_id_code (pre ++ b)
       = Ok (fmt_hex (bin_value (pre ++ b)), manuf, vers, part).
Proof.
  intros Hpre Hb Hlen.
  do 3 eexists.
  split; [apply (decode_device_id_code_fields b Hlen Hb) |].
  destruct (slices_of_long_idcode pre b Hlen) as (Hv & Hp & Hm).
  unfold decode_device_id_code. rewrite Hv, Hp, Hm.
  rewrite (int_0b_bits (substring 0 4 b)),
          (int_0b_bits (substring 4 16 b)),
          (int_0b_bits (substring 20 11 b)),
          (int_0b_bits (pre ++ b));
    try (apply bit_string_substring; exact Hb);
    try (eapply nonempty_of_length; apply length_substring; lia).
  - reflexivity.
  - rewrite bit_string_app, Hpre, Hb. reflexivity.
  - destruct pre; [apply (nonempty_of_length b 31 Hlen) | discriminate].
Qed.

Lemma decode_device_id_code_low_bits_witness :
  bit_string "101" = true
  /\ bit_string "00001001011001000010000000111111" = true
  /\ String.length "00001001011001000010000000111111" = 32%nat
  /\ exists (manuf : string) (vers : Z) (part : string),
       decode_device_id_code "00001001011001000010000000111111"
       = Ok (fmt_hex (bin_value "00001001011001000010000000111111"),
             manuf, vers, part)
       /\ decode_device_id_code
            ("101" ++ "00001001011001000010000000111111")
          = Ok (fmt_hex
                  (bin_value ("101" ++ "00001001011001000010000000111111")),
                manuf, vers, part).
Proof.
  repeat (split; [reflexivity |]).
  exact (decode_device_id_code_low_bits
           "101" "00001001011001000010000000111111"
           eq_refl eq_refl eq_refl).
Defined.
